(** * exchange/bidder.go: the single-seat bid adaptation core

    A shallow embedding of [bidderAdapter.requestBid] and of the functions it
    calls ([doRequest], [doTimeoutNotification], [makeExt], [addNativeTypes],
    [setAssetTypes], [getNativeImpByImpID], [getAssetByID]).

    Conventions of the embedding.
    - A Go pointer that the code tests against [nil], or that it dereferences
      without a test, is an [option]; dereferencing [None] is a run-time
      panic, modelled by the [Panic] outcome.
    - [[]byte] and [string] are both [string] (a sequence of bytes), so the
      conversions [string(b)] and [[]byte(s)] disappear.
    - [float64] is Rocq's primitive binary64 [float]; Go's [*] is
      [PrimFloat.mul].
    - Go integers are [Z]; none of the arithmetic here can overflow.
    - [http.Header] is a finite map from header names to lists of values.
    - The bidder plugin, the currency converter and the HTTP client are
      values of record or function types, as the interfaces they implement.
    - The packages [encoding/json] and [net/http] are not part of the
      repository: the three JSON codecs and the validation done by
      [http.NewRequest] are parameters of the development.
    - The goroutines of [requestBid] deliver their results in completion
      order; that order is an explicit argument, a function rearranging the
      list of results.
    - Each [TypedBid] owns its [Bid], and each native asset its [Img] and
      [Data]: two entries never share one pointer. *)

From Stdlib Require Import ZArith String List Floats Permutation Lia.
From stdpp Require Import base option list strings gmap pretty.

Open Scope Z_scope.

(** ** Run-time panics *)

Inductive outcome (A : Type) : Type :=
| Ret (a : A)
| Panic.
Arguments Ret {A} a.
Arguments Panic {A}.

#[global] Instance outcome_ret : MRet outcome := fun A a => Ret a.
#[global] Instance outcome_bind : MBind outcome := fun A B f m =>
  match m with
  | Ret a => f a
  | Panic => Panic
  end.

(** ** package errortypes, and the other [error] values the core meets *)

Module errortypes.

Inductive error : Type :=
| FailedToRequestBids (Message : string)
| Timeout (Message : string)
| BadServerResponse (Message : string)
| DeadlineExceeded            (* context.DeadlineExceeded *)
| errorString (s : string).   (* errors.New, fmt.Errorf, collaborators *)

Definition Error (e : error) : string :=
  match e with
  | FailedToRequestBids m => m
  | Timeout m => m
  | BadServerResponse m => m
  | DeadlineExceeded => "context deadline exceeded"
  | errorString s => s
  end.

End errortypes.
Import errortypes.

(** [fmt.Sprintf("%d", n)] *)
Definition fmt_d (n : Z) : string := pretty n.

(** ** package context *)

Module context.
Inductive Context : Type :=
| Background
| WithTimeout (parent : Context) (milliseconds : Z)
| Caller (id : Z).   (* a context handed in by the caller *)
End context.

(** ** package net/http *)

Module http.

Abbreviation Header := (gmap string (list string)).

Record Request := {
  Request_Method : string;
  Request_URL : string;
  Request_Body : string;
  Request_Header : Header
}.

(** What [ctxhttp.Do] followed by [ioutil.ReadAll] can observe. *)
Inductive DoResult : Type :=
| DoError (err : error)
| DoResponse (StatusCode : Z) (Body : error + string) (Header : Header).

(** [*http.Client], used under a context. *)
Definition Client := context.Context -> Request -> DoResult.

End http.

(** ** package openrtb *)

Module openrtb.

Record Bid := {
  Bid_ID : string;
  Bid_ImpID : string;
  Bid_Price : float;
  Bid_AdM : string;
  Bid_Ext : string
}.

Record Native := { Native_Request : string }.

Record Imp := {
  Imp_ID : string;
  Imp_Native : option Native
}.

Record App := { App_ID : string }.

Record BidRequest := {
  BidRequest_ID : string;
  BidRequest_Imp : list Imp;
  BidRequest_App : option App;
  BidRequest_Test : Z;
  BidRequest_Cur : list string;
  BidRequest_Ext : string
}.

(** [request.Cur = cur] *)
Definition set_Cur (request : BidRequest) (cur : list string) : BidRequest :=
  {| BidRequest_ID := BidRequest_ID request;
     BidRequest_Imp := BidRequest_Imp request;
     BidRequest_App := BidRequest_App request;
     BidRequest_Test := BidRequest_Test request;
     BidRequest_Cur := cur;
     BidRequest_Ext := BidRequest_Ext request |}.

(** [bid.AdM = adm] *)
Definition set_AdM (bid : Bid) (adm : string) : Bid :=
  {| Bid_ID := Bid_ID bid;
     Bid_ImpID := Bid_ImpID bid;
     Bid_Price := Bid_Price bid;
     Bid_AdM := adm;
     Bid_Ext := Bid_Ext bid |}.

(** [bid.Price = price] *)
Definition set_Price (bid : Bid) (price : float) : Bid :=
  {| Bid_ID := Bid_ID bid;
     Bid_ImpID := Bid_ImpID bid;
     Bid_Price := price;
     Bid_AdM := Bid_AdM bid;
     Bid_Ext := Bid_Ext bid |}.

End openrtb.

(** ** package openrtb/native/request *)

Module nativeRequests.

Record Image := { Image_Type : Z; Image_W : Z; Image_H : Z }.
Record Data := { Data_Type : Z; Data_Len : Z }.

Record Asset := {
  Asset_ID : Z;
  Asset_Required : Z;
  Asset_Img : option Image;
  Asset_Data : option Data
}.

Record Request := {
  Request_Ver : string;
  Request_Assets : list Asset
}.

End nativeRequests.

(** ** package openrtb/native/response *)

Module nativeResponse.

Record Image := {
  Image_Type : Z;
  Image_URL : string;
  Image_W : Z;
  Image_H : Z
}.

Record Data := {
  Data_Type : Z;
  Data_Label : string;
  Data_Value : string
}.

Record Asset := {
  Asset_ID : Z;
  Asset_Required : Z;
  Asset_Img : option Image;
  Asset_Data : option Data
}.

Record Response := {
  Response_Ver : string;
  Response_Assets : list Asset;
  Response_ImpTrackers : list string
}.

(** [asset.Img.Type = t], through the pointer [asset.Img] *)
Definition set_Img_Type (asset : Asset) (img : Image) (t : Z) : Asset :=
  {| Asset_ID := Asset_ID asset;
     Asset_Required := Asset_Required asset;
     Asset_Img := Some {| Image_Type := t;
                          Image_URL := Image_URL img;
                          Image_W := Image_W img;
                          Image_H := Image_H img |};
     Asset_Data := Asset_Data asset |}.

(** [asset.Data.Type = t], through the pointer [asset.Data] *)
Definition set_Data_Type (asset : Asset) (data : Data) (t : Z) : Asset :=
  {| Asset_ID := Asset_ID asset;
     Asset_Required := Asset_Required asset;
     Asset_Img := Asset_Img asset;
     Asset_Data := Some {| Data_Type := t;
                           Data_Label := Data_Label data;
                           Data_Value := Data_Value data |} |}.

(** [nativeMarkup.Assets], seen after the loop over it *)
Definition set_Assets (r : Response) (assets : list Asset) : Response :=
  {| Response_Ver := Response_Ver r;
     Response_Assets := assets;
     Response_ImpTrackers := Response_ImpTrackers r |}.

End nativeResponse.

(** ** package openrtb_ext *)

Module openrtb_ext.

Definition BidType := string.
Definition BidTypeBanner : BidType := "banner".
Definition BidTypeVideo : BidType := "video".
Definition BidTypeAudio : BidType := "audio".
Definition BidTypeNative : BidType := "native".

Definition BidderName := string.

Record ExtBidPrebidVideo := {
  ExtBidPrebidVideo_Duration : Z;
  ExtBidPrebidVideo_PrimaryCategory : string
}.

Record ExtHttpCall := {
  ExtHttpCall_Uri : string;
  ExtHttpCall_RequestBody : string;
  ExtHttpCall_ResponseBody : string;
  ExtHttpCall_Status : Z
}.

End openrtb_ext.

(** ** package currencies *)

Module currencies.
(** The interface [Conversions]: [GetRate(from, to) (float64, error)]. *)
Record Conversions := {
  GetRate : string -> string -> float * option error
}.
End currencies.

(** ** package adapters *)

Module adapters.

Record RequestData := {
  RequestData_Method : string;
  RequestData_Uri : string;
  RequestData_Body : string;
  RequestData_Headers : http.Header
}.

Record ResponseData := {
  ResponseData_StatusCode : Z;
  ResponseData_Body : string;
  ResponseData_Headers : http.Header
}.

Record TypedBid := {
  TypedBid_Bid : option openrtb.Bid;
  TypedBid_BidType : openrtb_ext.BidType;
  TypedBid_BidVideo : option openrtb_ext.ExtBidPrebidVideo;
  TypedBid_DealPriority : Z
}.

Record BidderResponse := {
  BidderResponse_Currency : string;
  BidderResponse_Bids : list (option TypedBid)
}.

Record ExtraRequestInfo := { ExtraRequestInfo_PbsEntryPoint : string }.

(** The capability [TimeoutBidder]. *)
Definition MakeTimeoutNotificationT :=
  RequestData -> option RequestData * list error.

(** The interface [Bidder]; [Bidder_TimeoutBidder] is [Some] when the
    dynamic type also implements [TimeoutBidder]. *)
Record Bidder := {
  MakeRequests :
    openrtb.BidRequest -> option ExtraRequestInfo ->
    list (option RequestData) * list error;
  MakeBids :
    openrtb.BidRequest -> option RequestData -> option ResponseData ->
    option BidderResponse * list error;
  Bidder_TimeoutBidder : option MakeTimeoutNotificationT
}.

(** [bid.Bid.AdM = adm] on an entry whose [Bid] is [bid] *)
Definition set_Bid (tb : TypedBid) (bid : openrtb.Bid) : TypedBid :=
  {| TypedBid_Bid := Some bid;
     TypedBid_BidType := TypedBid_BidType tb;
     TypedBid_BidVideo := TypedBid_BidVideo tb;
     TypedBid_DealPriority := TypedBid_DealPriority tb |}.

End adapters.

(** ** package exchange *)

Module exchange.
Import openrtb openrtb_ext adapters currencies.

Record pbsOrtbBid := {
  pbsOrtbBid_bid : option openrtb.Bid;
  pbsOrtbBid_bidType : openrtb_ext.BidType;
  pbsOrtbBid_bidTargets : gmap string string;
  pbsOrtbBid_bidVideo : option openrtb_ext.ExtBidPrebidVideo;
  pbsOrtbBid_dealPriority : Z
}.

Record pbsOrtbSeatBid := {
  seatBid_bids : list pbsOrtbBid;
  seatBid_currency : string;
  seatBid_httpCalls : list openrtb_ext.ExtHttpCall;
  seatBid_ext : string
}.

Record bidderAdapter := {
  Bidder : adapters.Bidder;
  Client : http.Client
}.

Record httpCallInfo := {
  info_request : option adapters.RequestData;
  info_response : option adapters.ResponseData;
  info_err : option error
}.

Definition adaptBidder (bidder : adapters.Bidder) (client : http.Client)
  : bidderAdapter :=
  {| Bidder := bidder; Client := client |}.

(** The HTTP call a detached notification goroutine issues; its answer is
    thrown away. *)
Definition issuedCall : Type := context.Context * http.Request.

(** The local variables of [requestBid] that its collecting loop reads and
    writes, with the borrowed [*openrtb.BidRequest] it may write to. *)
Record collector := {
  c_request : openrtb.BidRequest;
  c_seatBid : pbsOrtbSeatBid;
  c_errs : list error
}.

Definition defaultCurrency : string := "USD".

Definition noRequestsMessage : string :=
  "The adapter failed to generate any bid requests, but also failed to generate an error explaining why".

Section Core.

(** [json.Unmarshal(adm, &nativeMarkup)] with
    [nativeMarkup *nativeResponse.Response]: an error, or the pointer
    after the call ([None] for the JSON literal null). *)
Variable json_Unmarshal_Response :
  string -> error + option nativeResponse.Response.

(** [json.Unmarshal(s, &nativePayload)] with a zero
    [nativePayload nativeRequests.Request]: the payload after the call,
    and the error if any. *)
Variable json_Unmarshal_Request :
  string -> nativeRequests.Request * option error.

(** [json.Marshal] of the value [nativeMarkup] points to *)
Variable json_Marshal_Response :
  nativeResponse.Response -> error + string.

(** The error of [http.NewRequest(method, url, body)], if the method or
    the URL is refused. *)
Variable http_NewRequest_error : string -> string -> option error.

Definition http_NewRequest (method url body : string)
  : error + http.Request :=
  match http_NewRequest_error method url with
  | Some e => inl e
  | None => inr {| http.Request_Method := method;
                   http.Request_URL := url;
                   http.Request_Body := body;
                   http.Request_Header := ∅ |}
  end.

(** [httpReq.Header = h] *)
Definition set_Header (httpReq : http.Request) (h : http.Header)
  : http.Request :=
  {| http.Request_Method := http.Request_Method httpReq;
     http.Request_URL := http.Request_URL httpReq;
     http.Request_Body := http.Request_Body httpReq;
     http.Request_Header := h |}.

Fixpoint getNativeImpByImpID (impID : string) (imps : list openrtb.Imp)
  : error + openrtb.Native :=
  match imps with
  | [] => inl (errorString "Could not find native imp")
  | impInRequest :: rest =>
      match Imp_Native impInRequest with
      | Some native =>
          if String.eqb (Imp_ID impInRequest) impID then inr native
          else getNativeImpByImpID impID rest
      | None => getNativeImpByImpID impID rest
      end
  end.

Fixpoint getAssetByID (id : Z) (assets : list nativeRequests.Asset)
  : error + nativeRequests.Asset :=
  match assets with
  | [] => inl (errorString ("Unable to find asset with ID:" +:+ fmt_d id
                            +:+ " in the request"))
  | asset :: rest =>
      if id =? nativeRequests.Asset_ID asset then inr asset
      else getAssetByID id rest
  end.

(** The asset as the caller sees it afterwards (the writes go through
    the pointers [asset.Img] and [asset.Data]), and the returned error. *)
Definition setAssetTypes (asset : nativeResponse.Asset)
    (nativePayload : nativeRequests.Request)
  : nativeResponse.Asset * option error :=
  let id := nativeResponse.Asset_ID asset in
  let afterImg : nativeResponse.Asset * option error :=
    match nativeResponse.Asset_Img asset with
    | Some img =>
        match getAssetByID id (nativeRequests.Request_Assets nativePayload) with
        | inr tempAsset =>
            match nativeRequests.Asset_Img tempAsset with
            | Some tempImg =>
                if negb (nativeRequests.Image_Type tempImg =? 0)
                then (nativeResponse.set_Img_Type asset img
                        (nativeRequests.Image_Type tempImg), None)
                else (asset, None)
            | None =>
                (asset, Some (errorString
                   ("Response has an Image asset with ID:" +:+ fmt_d id
                    +:+ " present that doesn't exist in the request")))
            end
        | inl e => (asset, Some e)
        end
    | None => (asset, None)
    end in
  match afterImg with
  | (asset, Some e) => (asset, Some e)
  | (asset, None) =>
      match nativeResponse.Asset_Data asset with
      | Some data =>
          match getAssetByID id (nativeRequests.Request_Assets nativePayload) with
          | inr tempAsset =>
              match nativeRequests.Asset_Data tempAsset with
              | Some tempData =>
                  if negb (nativeRequests.Data_Type tempData =? 0)
                  then (nativeResponse.set_Data_Type asset data
                          (nativeRequests.Data_Type tempData), None)
                  else (asset, None)
              | None =>
                  (asset, Some (errorString
                     ("Response has a Data asset with ID:" +:+ fmt_d id
                      +:+ " present that doesn't exist in the request")))
              end
          | inl e => (asset, Some e)
          end
      | None => (asset, None)
      end
  end.

(** The loop [for _, asset := range nativeMarkup.Assets] of
    [addNativeTypes]. *)
Fixpoint setAllAssetTypes (assets : list nativeResponse.Asset)
    (nativePayload : nativeRequests.Request) (errs : list error)
  : list nativeResponse.Asset * list error :=
  match assets with
  | [] => ([], errs)
  | asset :: rest =>
      let '(asset', e) := setAssetTypes asset nativePayload in
      let errs := match e with Some e => errs ++ [e] | None => errs end in
      let '(rest', errs) := setAllAssetTypes rest nativePayload errs in
      (asset' :: rest', errs)
  end.

Definition addNativeTypes (bid : option openrtb.Bid)
    (request : openrtb.BidRequest)
  : outcome (option nativeResponse.Response * list error) :=
  let errs : list error := [] in
  match bid with
  | None => Panic                                 (* bid.AdM *)
  | Some b =>
      match json_Unmarshal_Response (Bid_AdM b) with
      | inl _ => Ret (None, errs)
      | inr None => Panic                         (* nativeMarkup.Assets *)
      | inr (Some nativeMarkup) =>
          if Nat.eqb (length (nativeResponse.Response_Assets nativeMarkup)) 0
          then Ret (None, errs)
          else
            match getNativeImpByImpID (Bid_ImpID b) (BidRequest_Imp request) with
            | inl e => Ret (None, errs ++ [e])
            | inr nativeImp =>
                let '(nativePayload, e) :=
                  json_Unmarshal_Request (Native_Request nativeImp) in
                let errs :=
                  match e with Some e => errs ++ [e] | None => errs end in
                let '(assets, errs) :=
                  setAllAssetTypes
                    (nativeResponse.Response_Assets nativeMarkup)
                    nativePayload errs in
                Ret (Some (nativeResponse.set_Assets nativeMarkup assets), errs)
            end
      end
  end.

Definition makeExt (httpInfo : httpCallInfo)
  : outcome openrtb_ext.ExtHttpCall :=
  match info_err httpInfo with
  | None =>
      match info_request httpInfo, info_response httpInfo with
      | Some req, Some resp =>
          Ret {| ExtHttpCall_Uri := RequestData_Uri req;
                 ExtHttpCall_RequestBody := RequestData_Body req;
                 ExtHttpCall_ResponseBody := ResponseData_Body resp;
                 ExtHttpCall_Status := ResponseData_StatusCode resp |}
      | _, _ => Panic
      end
  | Some _ =>
      match info_request httpInfo with
      | None =>
          Ret {| ExtHttpCall_Uri := EmptyString;
                 ExtHttpCall_RequestBody := EmptyString;
                 ExtHttpCall_ResponseBody := EmptyString;
                 ExtHttpCall_Status := 0 |}
      | Some req =>
          Ret {| ExtHttpCall_Uri := RequestData_Uri req;
                 ExtHttpCall_RequestBody := RequestData_Body req;
                 ExtHttpCall_ResponseBody := EmptyString;
                 ExtHttpCall_Status := 0 |}
      end
  end.

(** The call the notifier issues, if it issues one. *)
Definition doTimeoutNotification (bidder : bidderAdapter)
    (timeoutBidder : adapters.MakeTimeoutNotificationT)
    (req : adapters.RequestData)
  : option issuedCall :=
  let ctx := context.WithTimeout context.Background 200 in
  let '(toReq, errL) := timeoutBidder req in
  match toReq with
  | Some toReq =>
      if Nat.eqb (length errL) 0 then
        match http_NewRequest (RequestData_Method toReq)
                (RequestData_Uri toReq) (RequestData_Body toReq) with
        | inr httpReq =>
            let httpReq := set_Header httpReq (RequestData_Headers req) in
            Some (ctx, httpReq)
        | inl _ => None
        end
      else None
  | None => None
  end.

Definition failureStatusMessage (statusCode : Z) : string :=
  "Server responded with failure status: " +:+ fmt_d statusCode
  +:+ ". Set request.test = 1 for debugging info.".

(** The [httpCallInfo], and what the goroutine started by
    [go bidder.doTimeoutNotification(tb, req)] does, when one is
    started. *)
Definition doRequest (bidder : bidderAdapter) (ctx : context.Context)
    (req : option adapters.RequestData)
  : outcome (httpCallInfo * option (option issuedCall)) :=
  match req with
  | None => Panic                                 (* req.Method *)
  | Some rd =>
      match http_NewRequest (RequestData_Method rd) (RequestData_Uri rd)
              (RequestData_Body rd) with
      | inl e =>
          Ret ({| info_request := req; info_response := None;
                  info_err := Some e |}, None)
      | inr httpReq =>
          let httpReq := set_Header httpReq (RequestData_Headers rd) in
          match Client bidder ctx httpReq with
          | http.DoError e =>
              match e with
              | DeadlineExceeded =>
                  let e' := Timeout (Error e) in
                  let spawned :=
                    match Bidder_TimeoutBidder (Bidder bidder) with
                    | Some tb => Some (doTimeoutNotification bidder tb rd)
                    | None => None
                    end in
                  Ret ({| info_request := req; info_response := None;
                          info_err := Some e' |}, spawned)
              | _ =>
                  Ret ({| info_request := req; info_response := None;
                          info_err := Some e |}, None)
              end
          | http.DoResponse statusCode body header =>
              match body with
              | inl e =>
                  Ret ({| info_request := req; info_response := None;
                          info_err := Some e |}, None)
              | inr respBody =>
                  let e :=
                    if (statusCode <? 200) || (400 <=? statusCode)
                    then Some (BadServerResponse
                                 (failureStatusMessage statusCode))
                    else None in
                  Ret ({| info_request := req;
                          info_response :=
                            Some {| ResponseData_StatusCode := statusCode;
                                    ResponseData_Body := respBody;
                                    ResponseData_Headers := header |};
                          info_err := e |}, None)
              end
          end
      end
  end.

(** The loop [for _, bidReqCur := range request.Cur]: the values of
    [conversionRate], [err] and [seatBid.currency] when it ends. *)
Fixpoint resolveCurrency (conversions : Conversions)
    (bidCurrency : string) (cur : list string)
    (conversionRate : float) (rateErr : option error) (currency : string)
  : float * option error * string :=
  match cur with
  | [] => (conversionRate, rateErr, currency)
  | bidReqCur :: rest =>
      let '(conversionRate, rateErr) :=
        GetRate conversions bidCurrency bidReqCur in
      match rateErr with
      | None => (conversionRate, None, bidReqCur)
      | Some _ =>
          resolveCurrency conversions bidCurrency rest
            conversionRate rateErr currency
      end
  end.

(** The loop over [bidResponse.Bids] under [request.App != nil]: the
    entries and [errs] when it ends. *)
Fixpoint enrichNativeBids (request : openrtb.BidRequest)
    (typedBids : list (option adapters.TypedBid)) (errs : list error)
  : outcome (list (option adapters.TypedBid) * list error) :=
  match typedBids with
  | [] => Ret ([], errs)
  | None :: _ => Panic                            (* Bids[i].BidType *)
  | Some tb :: rest =>
      '(tb', errs) ←
        (if String.eqb (TypedBid_BidType tb) BidTypeNative then
           '(nativeMarkup, moreErrs) ←
             addNativeTypes (TypedBid_Bid tb) request;
           let errs := errs ++ moreErrs in
           match nativeMarkup with
           | Some nativeMarkup =>
               match json_Marshal_Response nativeMarkup with
               | inl e => Ret (tb, errs ++ [e])
               | inr markup =>
                   match TypedBid_Bid tb with
                   | Some b => Ret (set_Bid tb (set_AdM b markup), errs)
                   | None => Panic                (* Bids[i].Bid.AdM *)
                   end
               end
           | None => Ret (tb, errs)
           end
         else Ret (tb, errs));
      '(rest', errs) ← enrichNativeBids request rest errs;
      Ret (Some tb' :: rest', errs)
  end.

(** The block [if request.App != nil { ... }]. *)
Definition enrichIfApp (request : openrtb.BidRequest)
    (typedBids : list (option adapters.TypedBid)) (errs : list error)
  : outcome (list (option adapters.TypedBid) * list error) :=
  match BidRequest_App request with
  | Some _ => enrichNativeBids request typedBids errs
  | None => Ret (typedBids, errs)
  end.

(** [bid.Price * bidAdjustment * conversionRate] *)
Definition adjustPrice (price bidAdjustment conversionRate : float)
  : float :=
  PrimFloat.mul (PrimFloat.mul price bidAdjustment) conversionRate.

(** The [pbsOrtbBid] appended for one entry of [bidResponse.Bids], after
    the price of a non-nil [Bid] is updated. *)
Definition materializeBid (bidAdjustment conversionRate : float)
    (tb : adapters.TypedBid) : pbsOrtbBid :=
  {| pbsOrtbBid_bid :=
       match TypedBid_Bid tb with
       | Some b =>
           Some (set_Price b
                   (adjustPrice (Bid_Price b) bidAdjustment conversionRate))
       | None => None
       end;
     pbsOrtbBid_bidType := TypedBid_BidType tb;
     pbsOrtbBid_bidTargets := ∅;
     pbsOrtbBid_bidVideo := TypedBid_BidVideo tb;
     pbsOrtbBid_dealPriority := TypedBid_DealPriority tb |}.

(** The loop over [bidResponse.Bids] under [err == nil]: [seatBid.bids]
    when it ends. *)
Fixpoint materializeBids (bidAdjustment conversionRate : float)
    (typedBids : list (option adapters.TypedBid)) (bids : list pbsOrtbBid)
  : outcome (list pbsOrtbBid) :=
  match typedBids with
  | [] => Ret bids
  | None :: _ => Panic                            (* Bids[i].Bid *)
  | Some tb :: rest =>
      materializeBids bidAdjustment conversionRate rest
        (bids ++ [materializeBid bidAdjustment conversionRate tb])
  end.

Definition set_bids (seatBid : pbsOrtbSeatBid) (bids : list pbsOrtbBid)
  : pbsOrtbSeatBid :=
  {| seatBid_bids := bids;
     seatBid_currency := seatBid_currency seatBid;
     seatBid_httpCalls := seatBid_httpCalls seatBid;
     seatBid_ext := seatBid_ext seatBid |}.

Definition set_currency (seatBid : pbsOrtbSeatBid) (currency : string)
  : pbsOrtbSeatBid :=
  {| seatBid_bids := seatBid_bids seatBid;
     seatBid_currency := currency;
     seatBid_httpCalls := seatBid_httpCalls seatBid;
     seatBid_ext := seatBid_ext seatBid |}.

Definition set_httpCalls (seatBid : pbsOrtbSeatBid)
    (httpCalls : list openrtb_ext.ExtHttpCall) : pbsOrtbSeatBid :=
  {| seatBid_bids := seatBid_bids seatBid;
     seatBid_currency := seatBid_currency seatBid;
     seatBid_httpCalls := httpCalls;
     seatBid_ext := seatBid_ext seatBid |}.

(** [if request.Test == 1 { seatBid.httpCalls = append(seatBid.httpCalls,
    makeExt(httpInfo)) }] *)
Definition captureHttpCall (request : openrtb.BidRequest)
    (seatBid : pbsOrtbSeatBid) (httpInfo : httpCallInfo)
  : outcome pbsOrtbSeatBid :=
  if BidRequest_Test request =? 1 then
    call ← makeExt httpInfo;
    Ret (set_httpCalls seatBid (seatBid_httpCalls seatBid ++ [call]))
  else Ret seatBid.

(** [bidResponse.Currency] after the empty string is replaced by
    [defaultCurrency]. *)
Definition responseCurrency (bidResponse : adapters.BidderResponse)
  : string :=
  if String.eqb (BidderResponse_Currency bidResponse) EmptyString
  then defaultCurrency
  else BidderResponse_Currency bidResponse.

(** The request after an empty [request.Cur] is replaced by the
    one-element list of [defaultCurrency]. *)
Definition defaultCur (request : openrtb.BidRequest)
  : openrtb.BidRequest :=
  if Nat.eqb (length (BidRequest_Cur request)) 0
  then set_Cur request [defaultCurrency]
  else request.

(** One turn of the loop [for i := 0; i < len(reqData); i++] of
    [requestBid], on the result [httpInfo] received from the channel. *)
Definition collectResponse (bidder : bidderAdapter) (bidAdjustment : float)
    (conversions : Conversions) (st : collector) (httpInfo : httpCallInfo)
  : outcome collector :=
  let request := c_request st in
  seatBid ← captureHttpCall request (c_seatBid st) httpInfo;
  match info_err httpInfo with
  | None =>
      let '(bidResponse, moreErrs) :=
        MakeBids (Bidder bidder) request
          (info_request httpInfo) (info_response httpInfo) in
      let errs := c_errs st ++ moreErrs in
      match bidResponse with
      | Some bidResponse =>
          let bidCurrency := responseCurrency bidResponse in
          let request := defaultCur request in
          let '(conversionRate, rateErr, currency) :=
            resolveCurrency conversions bidCurrency (BidRequest_Cur request)
              0%float None (seatBid_currency seatBid) in
          let seatBid := set_currency seatBid currency in
          '(typedBids, errs) ←
            enrichIfApp request (BidderResponse_Bids bidResponse) errs;
          match rateErr with
          | None =>
              bids ← materializeBids bidAdjustment conversionRate
                       typedBids (seatBid_bids seatBid);
              Ret {| c_request := request;
                     c_seatBid := set_bids seatBid bids;
                     c_errs := errs |}
          | Some e =>
              Ret {| c_request := request;
                     c_seatBid := seatBid;
                     c_errs := errs ++ [e] |}
          end
      | None =>
          Ret {| c_request := request;
                 c_seatBid := seatBid;
                 c_errs := errs |}
      end
  | Some e =>
      Ret {| c_request := request;
             c_seatBid := seatBid;
             c_errs := c_errs st ++ [e] |}
  end.

(** The whole loop, on the results in the order the channel delivers
    them. *)
Fixpoint collect (bidder : bidderAdapter) (bidAdjustment : float)
    (conversions : Conversions) (responses : list httpCallInfo)
    (st : collector) : outcome collector :=
  match responses with
  | [] => Ret st
  | httpInfo :: rest =>
      st' ← collectResponse bidder bidAdjustment conversions st httpInfo;
      collect bidder bidAdjustment conversions rest st'
  end.

(** [completion] is the order in which the goroutines send to
    [responseChannel]. The result carries the request as [requestBid]
    leaves it to its caller. *)
Definition requestBid (bidder : bidderAdapter)
    (completion : list httpCallInfo -> list httpCallInfo)
    (ctx : context.Context) (request : openrtb.BidRequest)
    (name : openrtb_ext.BidderName) (bidAdjustment : float)
    (conversions : Conversions)
    (reqInfo : option adapters.ExtraRequestInfo)
  : outcome (openrtb.BidRequest * (option pbsOrtbSeatBid * list error)) :=
  let '(reqData, errs) := MakeRequests (Bidder bidder) request reqInfo in
  if Nat.eqb (length reqData) 0 then
    let errs :=
      if Nat.eqb (length errs) 0
      then errs ++ [FailedToRequestBids noRequestsMessage]
      else errs in
    Ret (request, (None, errs))
  else
    responses ←
      (if Nat.eqb (length reqData) 1 then
         match reqData !! 0%nat with
         | Some oneReqData =>
             r ← doRequest bidder ctx oneReqData; Ret [r.1]
         | None => Panic
         end
       else
         rs ← mapM (doRequest bidder ctx) reqData;
         Ret (completion (fst <$> rs)));
    let seatBid :=
      {| seatBid_bids := [];
         seatBid_currency := defaultCurrency;
         seatBid_httpCalls := [];
         seatBid_ext := EmptyString |} in
    st ← collect bidder bidAdjustment conversions responses
           {| c_request := request; c_seatBid := seatBid; c_errs := errs |};
    Ret (c_request st, (Some (c_seatBid st), c_errs st)).

End Core.


(** The response asset has a matching request asset: one with its [ID],
    holding an [Img] if the response asset holds one and a [Data] if the
    response asset holds one. *)
Definition matchedIn (nativePayload : nativeRequests.Request)
    (asset : nativeResponse.Asset) : bool :=
  match getAssetByID (nativeResponse.Asset_ID asset)
          (nativeRequests.Request_Assets nativePayload) with
  | inr tempAsset =>
      (match nativeResponse.Asset_Img asset with
       | Some _ => bool_decide (is_Some (nativeRequests.Asset_Img tempAsset))
       | None => true
       end)
      && (match nativeResponse.Asset_Data asset with
          | Some _ => bool_decide (is_Some (nativeRequests.Asset_Data tempAsset))
          | None => true
          end)
  | inl _ =>
      bool_decide (nativeResponse.Asset_Img asset = None)
      && bool_decide (nativeResponse.Asset_Data asset = None)
  end.

(** What the enrichment loop keeps of an entry: everything but the [AdM]
    of its [Bid]. *)
Definition sameButAdM (o o' : option TypedBid) : Prop :=
  ∃ tb tb',
    o = Some tb ∧ o' = Some tb'
    ∧ TypedBid_BidType tb' = TypedBid_BidType tb
    ∧ TypedBid_BidVideo tb' = TypedBid_BidVideo tb
    ∧ TypedBid_DealPriority tb' = TypedBid_DealPriority tb
    ∧ Bid_Price <$> TypedBid_Bid tb' = Bid_Price <$> TypedBid_Bid tb.

(** What [setAssetTypes] keeps of a response asset: everything but the
    [Type] of its [Img] and the [Type] of its [Data]. *)
Definition sameButTypes (asset asset' : nativeResponse.Asset) : Prop :=
  nativeResponse.Asset_ID asset' = nativeResponse.Asset_ID asset
  ∧ nativeResponse.Asset_Required asset' = nativeResponse.Asset_Required asset
  ∧ option_Forall2
      (λ img img',
         nativeResponse.Image_URL img' = nativeResponse.Image_URL img
         ∧ nativeResponse.Image_W img' = nativeResponse.Image_W img
         ∧ nativeResponse.Image_H img' = nativeResponse.Image_H img)
      (nativeResponse.Asset_Img asset) (nativeResponse.Asset_Img asset')
  ∧ option_Forall2
      (λ data data',
         nativeResponse.Data_Label data' = nativeResponse.Data_Label data
         ∧ nativeResponse.Data_Value data' = nativeResponse.Data_Value data)
      (nativeResponse.Asset_Data asset) (nativeResponse.Asset_Data asset').

(** An entry of [bidResponse.Bids] on which no loop of [requestBid]
    dereferences a nil pointer: the entry is not nil and, if its type is
    native, it has a [Bid] whose [AdM] does not decode to a nil markup. *)
Definition safeEntry
    (json_Unmarshal_Response : string → error + option nativeResponse.Response)
    (o : option TypedBid) : bool :=
  match o with
  | None => false
  | Some tb =>
      if String.eqb (TypedBid_BidType tb) BidTypeNative then
        match TypedBid_Bid tb with
        | Some b =>
            match json_Unmarshal_Response (Bid_AdM b) with
            | inr None => false
            | _ => true
            end
        | None => false
        end
      else true
  end.

End exchange.

(** ** Concrete collaborators and inputs

    A small world on which the functions above can be run: a table-driven
    JSON codec, an HTTP client answering by URL, a converter with four
    rates, and a plugin that answers by response body. *)

Module scenario.
Import openrtb openrtb_ext adapters currencies exchange.

Definition iconAsset (t : Z) : nativeResponse.Asset :=
  {| nativeResponse.Asset_ID := 2;
     nativeResponse.Asset_Required := 0;
     nativeResponse.Asset_Img :=
       Some {| nativeResponse.Image_Type := t;
               nativeResponse.Image_URL := "http://img/icon.png";
               nativeResponse.Image_W := 50;
               nativeResponse.Image_H := 50 |};
     nativeResponse.Asset_Data := None |}.

Definition markup (t : Z) : nativeResponse.Response :=
  {| nativeResponse.Response_Ver := "1.2";
     nativeResponse.Response_Assets := [iconAsset t];
     nativeResponse.Response_ImpTrackers := [] |}.

Definition emptyMarkup : nativeResponse.Response :=
  {| nativeResponse.Response_Ver := "1.2";
     nativeResponse.Response_Assets := [];
     nativeResponse.Response_ImpTrackers := [] |}.

Definition json_Unmarshal_Response (adm : string)
  : error + option nativeResponse.Response :=
  if String.eqb adm "null" then inr None
  else if String.eqb adm "{assets:[{id:2,img:{url:icon}}]}"
  then inr (Some (markup 0))
  else if String.eqb adm "{assets:[]}" then inr (Some emptyMarkup)
  else inl (errorString "invalid character '<' looking for beginning of value").

Definition requestAsset (t : Z) : nativeRequests.Asset :=
  {| nativeRequests.Asset_ID := 2;
     nativeRequests.Asset_Required := 1;
     nativeRequests.Asset_Img :=
       Some {| nativeRequests.Image_Type := t;
               nativeRequests.Image_W := 50;
               nativeRequests.Image_H := 50 |};
     nativeRequests.Asset_Data := None |}.

Definition json_Unmarshal_Request (s : string)
  : nativeRequests.Request * option error :=
  if String.eqb s "{assets:[{id:2,img:{type:3}}]}"
  then ({| nativeRequests.Request_Ver := "1.2";
           nativeRequests.Request_Assets := [requestAsset 3] |}, None)
  else if String.eqb s "{assets:[{id:2,img:{}}]}"
  then ({| nativeRequests.Request_Ver := "1.2";
           nativeRequests.Request_Assets := [requestAsset 0] |}, None)
  else ({| nativeRequests.Request_Ver := EmptyString;
           nativeRequests.Request_Assets := [] |},
        Some (errorString "unexpected end of JSON input")).

Definition json_Marshal_Response (m : nativeResponse.Response)
  : error + string :=
  match nativeResponse.Response_Assets m with
  | [] => inr "{assets:[]}"
  | asset :: _ =>
      match nativeResponse.Asset_Img asset with
      | Some img =>
          if nativeResponse.Image_Type img =? 0
          then inr "{assets:[{id:2,img:{url:icon}}]}"
          else inr ("{assets:[{id:2,img:{url:icon,type:"
                    +:+ fmt_d (nativeResponse.Image_Type img) +:+ "}}]}")
      | None => inr "{assets:[{id:2}]}"
      end
  end.

Definition http_NewRequest_error (method url : string) : option error :=
  if String.eqb url "::" then Some (errorString "parse ::: missing protocol scheme")
  else None.

Definition client : http.Client := fun ctx httpReq =>
  let url := http.Request_URL httpReq in
  if String.eqb url "http://a" then http.DoResponse 200 (inr "body-a") ∅
  else if String.eqb url "http://b" then http.DoResponse 200 (inr "body-b") ∅
  else if String.eqb url "http://nil" then http.DoResponse 200 (inr "body-nil") ∅
  else if String.eqb url "http://native" then http.DoResponse 200 (inr "body-native") ∅
  else if String.eqb url "http://down" then http.DoResponse 503 (inr "unavailable") ∅
  else if String.eqb url "http://slow" then http.DoError DeadlineExceeded
  else http.DoError (errorString "connection refused").

Definition outbound (uri : string) : adapters.RequestData :=
  {| RequestData_Method := "POST";
     RequestData_Uri := uri;
     RequestData_Body := "{}";
     RequestData_Headers := {[ "Content-Type" := ["application/json"] ]} |}.

Definition mkBid (price : float) (adm : string) : openrtb.Bid :=
  {| Bid_ID := "bid-1"; Bid_ImpID := "imp1"; Bid_Price := price;
     Bid_AdM := adm; Bid_Ext := "{}" |}.

Definition typed (b : option openrtb.Bid) (t : BidType) : adapters.TypedBid :=
  {| TypedBid_Bid := b; TypedBid_BidType := t;
     TypedBid_BidVideo := None; TypedBid_DealPriority := 0 |}.

Definition makeBids (request : openrtb.BidRequest)
    (req : option adapters.RequestData) (resp : option adapters.ResponseData)
  : option adapters.BidderResponse * list error :=
  match resp with
  | None => (None, [errorString "no response"])
  | Some r =>
      let body := ResponseData_Body r in
      if String.eqb body "body-a" then
        (Some {| BidderResponse_Currency := "EUR";
                 BidderResponse_Bids :=
                   [Some (typed (Some (mkBid 2 "<div>a</div>")) BidTypeBanner)] |}, [])
      else if String.eqb body "body-b" then
        (Some {| BidderResponse_Currency := "JPY";
                 BidderResponse_Bids :=
                   [Some (typed (Some (mkBid 100 "<div>b</div>")) BidTypeBanner)] |}, [])
      else if String.eqb body "body-nil" then
        (Some {| BidderResponse_Currency := "USD";
                 BidderResponse_Bids := [Some (typed None BidTypeNative)] |}, [])
      else if String.eqb body "body-native" then
        (Some {| BidderResponse_Currency := "USD";
                 BidderResponse_Bids :=
                   [Some (typed (Some (mkBid 1 "{assets:[{id:2,img:{url:icon}}]}"))
                            BidTypeNative)] |}, [])
      else (None, [])
  end.

Definition notification (req : adapters.RequestData)
  : option adapters.RequestData * list error :=
  (Some {| RequestData_Method := "POST";
           RequestData_Uri := "http://notify";
           RequestData_Body := RequestData_Uri req;
           RequestData_Headers := {[ "X-Notification" := ["timeout"] ]} |}, []).

(** A plugin issuing one outbound request per URI of [uris]. *)
Definition plugin (uris : list string) : adapters.Bidder :=
  {| MakeRequests := fun _ _ => (Some <$> (outbound <$> uris), []);
     MakeBids := makeBids;
     Bidder_TimeoutBidder := Some notification |}.

Definition adapter (uris : list string) : bidderAdapter :=
  adaptBidder (plugin uris) client.

Definition noRate : float * option error :=
  (0%float, Some (errorString "Currency conversion rate not found")).

Definition rates : Conversions :=
  {| GetRate := fun from to =>
       if String.eqb from to then (1%float, None)
       else if String.eqb from "EUR" && String.eqb to "GBP" then (0.5%float, None)
       else if String.eqb from "EUR" && String.eqb to "USD" then (2%float, None)
       else if String.eqb from "JPY" && String.eqb to "USD" then (0.25%float, None)
       else noRate |}.

Definition imp1 (nativeRequest : string) : openrtb.Imp :=
  {| Imp_ID := "imp1";
     Imp_Native := Some {| Native_Request := nativeRequest |} |}.

Definition auction (app : option openrtb.App) (test : Z) (cur : list string)
  : openrtb.BidRequest :=
  {| BidRequest_ID := "auction-1";
     BidRequest_Imp := [imp1 "{assets:[{id:2,img:{}}]}"];
     BidRequest_App := app;
     BidRequest_Test := test;
     BidRequest_Cur := cur;
     BidRequest_Ext := "{}" |}.

Definition app : option openrtb.App := Some {| App_ID := "app-1" |}.

Definition ctx : context.Context := context.Caller 1.

(** The results reach the channel in the order the requests were made. *)
Definition inOrder (l : list httpCallInfo) : list httpCallInfo := l.

Definition run (uris : list string) (request : openrtb.BidRequest)
    (bidAdjustment : float)
  : outcome (openrtb.BidRequest * (option pbsOrtbSeatBid * list error)) :=
  requestBid json_Unmarshal_Response json_Unmarshal_Request
    json_Marshal_Response http_NewRequest_error
    (adapter uris) inOrder ctx request "demo" bidAdjustment rates None.

Definition start (request : openrtb.BidRequest) : collector :=
  {| c_request := request;
     c_seatBid := {| seatBid_bids := []; seatBid_currency := defaultCurrency;
                     seatBid_httpCalls := []; seatBid_ext := EmptyString |};
     c_errs := [] |}.

(** A response asset with a rating and no image, and the request asset it
    answers. *)
Definition ratingAsset (t : Z) : nativeResponse.Asset :=
  {| nativeResponse.Asset_ID := 5;
     nativeResponse.Asset_Required := 0;
     nativeResponse.Asset_Img := None;
     nativeResponse.Asset_Data :=
       Some {| nativeResponse.Data_Type := t;
               nativeResponse.Data_Label := "rating";
               nativeResponse.Data_Value := "4.5" |} |}.

Definition requestRating (t : Z) : nativeRequests.Asset :=
  {| nativeRequests.Asset_ID := 5;
     nativeRequests.Asset_Required := 0;
     nativeRequests.Asset_Img := None;
     nativeRequests.Asset_Data :=
       Some {| nativeRequests.Data_Type := t; nativeRequests.Data_Len := 3 |} |}.

Definition payload (assets : list nativeRequests.Asset)
  : nativeRequests.Request :=
  {| nativeRequests.Request_Ver := "1.2";
     nativeRequests.Request_Assets := assets |}.

(** A client on which every call fails with the deadline error. *)
Definition deadClient : http.Client := fun _ _ => http.DoError DeadlineExceeded.

(** A plugin without the timeout capability that answers every call with
    one banner bid in USD. *)
Definition bannerPlugin (uris : list string) : adapters.Bidder :=
  {| MakeRequests := fun _ _ => (Some <$> (outbound <$> uris), []);
     MakeBids := fun _ _ _ =>
       (Some {| BidderResponse_Currency := "USD";
                BidderResponse_Bids :=
                  [Some (typed (Some (mkBid 2 "<div>banner</div>"))
                           BidTypeBanner)] |}, []);
     Bidder_TimeoutBidder := None |}.

(** The result of the call to the endpoint answering with [body]. *)
Definition answered (uri body : string) : httpCallInfo :=
  {| info_request := Some (outbound uri);
     info_response :=
       Some {| ResponseData_StatusCode := 200;
               ResponseData_Body := body;
               ResponseData_Headers := ∅ |};
     info_err := None |}.

(** An auction whose only impression has the given ID and native
    request. *)
Definition auctionWith (impID nativeRequest : string) : openrtb.BidRequest :=
  {| BidRequest_ID := "auction-2";
     BidRequest_Imp :=
       [ {| Imp_ID := impID;
            Imp_Native := Some {| Native_Request := nativeRequest |} |} ];
     BidRequest_App := app;
     BidRequest_Test := 1;
     BidRequest_Cur := ["USD"];
     BidRequest_Ext := "{}" |}.

End scenario.

Import openrtb openrtb_ext adapters currencies exchange.


(** * Properties *)

(** ** The outcome monad *)

Lemma bind_Ret_inv {A B} (m : outcome A) (f : A → outcome B) (b : B) :
  m ≫= f = Ret b → ∃ a, m = Ret a ∧ f a = Ret b.
Proof.
  destruct m as [a|]; cbn; [|discriminate].
  intros Hf. exists a. split; [reflexivity | exact Hf].
Qed.

Lemma bind_Ret {A B} (a : A) (f : A → outcome B) : Ret a ≫= f = f a.
Proof. reflexivity. Qed.

(** Splits an equation [m ≫= f = Ret b], naming the intermediate value. *)
Tactic Notation "bind_inv" hyp(H) :=
  let a := fresh "a" in
  let Ha := fresh "Hrun" in
  apply bind_Ret_inv in H; destruct H as (a & Ha & H).

Tactic Notation "bind_inv" hyp(H) "as" ident(a) ident(Ha) :=
  apply bind_Ret_inv in H; destruct H as (a & Ha & H).

Lemma mapM_outcome_length {A B} (f : A → outcome B) (l : list A) (k : list B) :
  mapM f l = Ret k → length k = length l.
Proof.
  revert k. induction l as [|x l IH]; intros k Hk; cbn in Hk.
  - injection Hk as <-. reflexivity.
  - bind_inv Hk. bind_inv Hk. injection Hk as <-.
    cbn. f_equal. apply IH. assumption.
Qed.

Section Properties.
Context
  (json_Unmarshal_Response : string → error + option nativeResponse.Response)
  (json_Unmarshal_Request : string → nativeRequests.Request * option error)
  (json_Marshal_Response : nativeResponse.Response → error + string)
  (http_NewRequest_error : string → string → option error).

Local Abbreviation doRequest := (exchange.doRequest http_NewRequest_error).
Local Abbreviation doTimeoutNotification :=
  (exchange.doTimeoutNotification http_NewRequest_error).
Local Abbreviation addNativeTypes :=
  (exchange.addNativeTypes json_Unmarshal_Response json_Unmarshal_Request).
Local Abbreviation enrichNativeBids :=
  (exchange.enrichNativeBids json_Unmarshal_Response json_Unmarshal_Request
     json_Marshal_Response).
Local Abbreviation enrichIfApp :=
  (exchange.enrichIfApp json_Unmarshal_Response json_Unmarshal_Request
     json_Marshal_Response).
Local Abbreviation collectResponse :=
  (exchange.collectResponse json_Unmarshal_Response json_Unmarshal_Request
     json_Marshal_Response).
Local Abbreviation collect :=
  (exchange.collect json_Unmarshal_Response json_Unmarshal_Request
     json_Marshal_Response).
Local Abbreviation requestBid :=
  (exchange.requestBid json_Unmarshal_Response json_Unmarshal_Request
     json_Marshal_Response http_NewRequest_error).

(** ** The timeout notifier and the dispatcher *)

(** C10. Every call the notifier issues carries the method, URI and body
    of the request returned by [MakeTimeoutNotification] and the headers
    of the outbound request that timed out (the headers of the
    notification request are not looked at), under a fresh 200 ms
    context; and a call is issued only when [MakeTimeoutNotification]
    returned a non-nil request with an empty error list. *)
Theorem notification_uses_original_headers
    (bidder : bidderAdapter) (timeoutBidder : MakeTimeoutNotificationT)
    (req : RequestData) (ctx : context.Context) (httpReq : http.Request) :
  doTimeoutNotification bidder timeoutBidder req = Some (ctx, httpReq) →
  ∃ toReq : RequestData,
    timeoutBidder req = (Some toReq, [])
    ∧ http.Request_Method httpReq = RequestData_Method toReq
    ∧ http.Request_URL httpReq = RequestData_Uri toReq
    ∧ http.Request_Body httpReq = RequestData_Body toReq
    ∧ http.Request_Header httpReq = RequestData_Headers req
    ∧ ctx = context.WithTimeout context.Background 200.
Proof.
  unfold exchange.doTimeoutNotification, http_NewRequest.
  destruct (timeoutBidder req) as [[toReq|] errL]; [|discriminate].
  destruct errL as [|e errL]; cbn; [|discriminate].
  destruct (http_NewRequest_error _ _); [discriminate|].
  intros [= <- <-]. exists toReq. cbn. repeat split; reflexivity.
Qed.

(** The message of a [BadServerResponse], at a sample status. *)
Example failureStatusMessage_503 :
  failureStatusMessage 503
  = "Server responded with failure status: 503. Set request.test = 1 for debugging info.".
Proof. reflexivity. Qed.

Lemma doRequest_response (bidder : bidderAdapter) (ctx : context.Context)
    (rd : RequestData) (statusCode : Z) (respBody : string)
    (header : http.Header) :
  http_NewRequest_error (RequestData_Method rd) (RequestData_Uri rd) = None →
  Client bidder ctx
    {| http.Request_Method := RequestData_Method rd;
       http.Request_URL := RequestData_Uri rd;
       http.Request_Body := RequestData_Body rd;
       http.Request_Header := RequestData_Headers rd |}
  = http.DoResponse statusCode (inr respBody) header →
  doRequest bidder ctx (Some rd)
  = Ret ({| info_request := Some rd;
            info_response :=
              Some {| ResponseData_StatusCode := statusCode;
                      ResponseData_Body := respBody;
                      ResponseData_Headers := header |};
            info_err :=
              if (statusCode <? 200) || (400 <=? statusCode)
              then Some (BadServerResponse (failureStatusMessage statusCode))
              else None |}, None).
Proof.
  intros Hnew Hdo. unfold exchange.doRequest, http_NewRequest, set_Header.
  rewrite Hnew. cbn. rewrite Hdo. reflexivity.
Qed.

(** ** The collecting loop *)

(** A result that carries an error: the trace is recorded under
    [request.test == 1], the error is appended, and nothing else of the
    state changes; [MakeBids] is not consulted. *)
Lemma collectResponse_err (bidder : bidderAdapter) (bidAdjustment : float)
    (conversions : Conversions) (st : collector)
    (rd : RequestData) (resp : option ResponseData) (e : error) :
  collectResponse bidder bidAdjustment conversions st
    {| info_request := Some rd; info_response := resp; info_err := Some e |}
  = Ret {| c_request := c_request st;
           c_seatBid :=
             if BidRequest_Test (c_request st) =? 1
             then set_httpCalls (c_seatBid st)
                    (seatBid_httpCalls (c_seatBid st)
                     ++ [ {| ExtHttpCall_Uri := RequestData_Uri rd;
                             ExtHttpCall_RequestBody := RequestData_Body rd;
                             ExtHttpCall_ResponseBody := EmptyString;
                             ExtHttpCall_Status := 0 |} ])
             else c_seatBid st;
           c_errs := c_errs st ++ [e] |}.
Proof.
  unfold exchange.collectResponse, captureHttpCall. cbn.
  destruct (BidRequest_Test (c_request st) =? 1); reflexivity.
Qed.

(** C5. A call answered with a status below 200 or at least 400 yields a
    result holding the whole response (status, body, headers) and a
    [BadServerResponse] whose message names the status; the loop then
    takes the error branch: the error is appended and no bid is added. *)
Theorem bad_status_yields_error_and_no_bids
    (bidder : bidderAdapter) (ctx : context.Context) (rd : RequestData)
    (statusCode : Z) (respBody : string) (header : http.Header) :
  http_NewRequest_error (RequestData_Method rd) (RequestData_Uri rd) = None →
  Client bidder ctx
    {| http.Request_Method := RequestData_Method rd;
       http.Request_URL := RequestData_Uri rd;
       http.Request_Body := RequestData_Body rd;
       http.Request_Header := RequestData_Headers rd |}
  = http.DoResponse statusCode (inr respBody) header →
  statusCode < 200 ∨ 400 ≤ statusCode →
  ∃ httpInfo : httpCallInfo,
    doRequest bidder ctx (Some rd) = Ret (httpInfo, None)
    ∧ info_request httpInfo = Some rd
    ∧ info_response httpInfo
      = Some {| ResponseData_StatusCode := statusCode;
                ResponseData_Body := respBody;
                ResponseData_Headers := header |}
    ∧ info_err httpInfo
      = Some (BadServerResponse
                ("Server responded with failure status: " +:+ fmt_d statusCode
                 +:+ ". Set request.test = 1 for debugging info."))
    ∧ ∀ (bidAdjustment : float) (conversions : Conversions) (st : collector),
        ∃ st' : collector,
          collectResponse bidder bidAdjustment conversions st httpInfo = Ret st'
          ∧ seatBid_bids (c_seatBid st') = seatBid_bids (c_seatBid st)
          ∧ seatBid_currency (c_seatBid st') = seatBid_currency (c_seatBid st)
          ∧ c_request st' = c_request st
          ∧ c_errs st'
            = c_errs st ++ [BadServerResponse (failureStatusMessage statusCode)].
Proof.
  intros Hnew Hdo Hstatus.
  rewrite (doRequest_response bidder ctx rd statusCode respBody header Hnew Hdo).
  assert ((statusCode <? 200) || (400 <=? statusCode) = true) as ->.
  { apply orb_true_iff. destruct Hstatus; [left|right]; lia. }
  eexists. split; [reflexivity|]. cbn. repeat split.
  intros bidAdjustment conversions st. rewrite collectResponse_err.
  eexists. split; [reflexivity|]. cbn.
  destruct (BidRequest_Test (c_request st) =? 1); repeat split; reflexivity.
Qed.

(** What a turn of the loop that returns has done, branch by branch. *)
Lemma collectResponse_inv (bidder : bidderAdapter) (bidAdjustment : float)
    (conversions : Conversions) (st st' : collector) (httpInfo : httpCallInfo) :
  collectResponse bidder bidAdjustment conversions st httpInfo = Ret st' →
  ∃ seatBid : pbsOrtbSeatBid,
    captureHttpCall (c_request st) (c_seatBid st) httpInfo = Ret seatBid
    ∧ ((∃ e, info_err httpInfo = Some e
             ∧ st' = {| c_request := c_request st; c_seatBid := seatBid;
                        c_errs := c_errs st ++ [e] |})
       ∨ (∃ moreErrs,
             info_err httpInfo = None
             ∧ MakeBids (Bidder bidder) (c_request st)
                 (info_request httpInfo) (info_response httpInfo)
               = (None, moreErrs)
             ∧ st' = {| c_request := c_request st; c_seatBid := seatBid;
                        c_errs := c_errs st ++ moreErrs |})
       ∨ (∃ bidResponse moreErrs typedBids errs conversionRate rateErr currency,
             info_err httpInfo = None
             ∧ MakeBids (Bidder bidder) (c_request st)
                 (info_request httpInfo) (info_response httpInfo)
               = (Some bidResponse, moreErrs)
             ∧ resolveCurrency conversions (responseCurrency bidResponse)
                 (BidRequest_Cur (defaultCur (c_request st)))
                 0%float None (seatBid_currency seatBid)
               = (conversionRate, rateErr, currency)
             ∧ enrichIfApp (defaultCur (c_request st))
                 (BidderResponse_Bids bidResponse) (c_errs st ++ moreErrs)
               = Ret (typedBids, errs)
             ∧ match rateErr with
               | None =>
                   ∃ bids,
                     materializeBids bidAdjustment conversionRate typedBids
                       (seatBid_bids seatBid) = Ret bids
                     ∧ st' = {| c_request := defaultCur (c_request st);
                                c_seatBid :=
                                  set_bids (set_currency seatBid currency) bids;
                                c_errs := errs |}
               | Some e =>
                   st' = {| c_request := defaultCur (c_request st);
                            c_seatBid := set_currency seatBid currency;
                            c_errs := errs ++ [e] |}
               end)).
Proof.
  unfold exchange.collectResponse. intros H. bind_inv H.
  exists a. split; [assumption|].
  destruct (info_err httpInfo) as [e|].
  { left. exists e. injection H as <-. split; reflexivity. }
  right.
  destruct (MakeBids _ _ _ _) as [[bidResponse|] moreErrs].
  2:{ left. exists moreErrs. injection H as <-. repeat split. }
  right.
  destruct (resolveCurrency _ _ _ _ _ _) as [[conversionRate rateErr] currency]
    eqn:Hrate.
  bind_inv H. destruct a0 as [typedBids errs].
  exists bidResponse, moreErrs, typedBids, errs, conversionRate, rateErr, currency.
  repeat (split; [first [reflexivity | assumption]|]).
  destruct rateErr as [e|].
  - injection H as <-. reflexivity.
  - bind_inv H. injection H as <-. exists a0. split; [assumption | reflexivity].
Qed.

Lemma captureHttpCall_inv (request : BidRequest) (seatBid seatBid' : pbsOrtbSeatBid)
    (httpInfo : httpCallInfo) :
  captureHttpCall request seatBid httpInfo = Ret seatBid' →
  seatBid_bids seatBid' = seatBid_bids seatBid
  ∧ seatBid_currency seatBid' = seatBid_currency seatBid
  ∧ seatBid_ext seatBid' = seatBid_ext seatBid
  ∧ ∃ calls,
      seatBid_httpCalls seatBid' = seatBid_httpCalls seatBid ++ calls
      ∧ length calls = if BidRequest_Test request =? 1 then 1%nat else 0%nat.
Proof.
  unfold captureHttpCall. destruct (BidRequest_Test request =? 1).
  - intros H. bind_inv H. injection H as <-. cbn.
    repeat split. exists [a]. split; reflexivity.
  - intros [= <-]. repeat split. exists []. rewrite app_nil_r.
    split; reflexivity.
Qed.

Lemma defaultCur_Test (request : BidRequest) :
  BidRequest_Test (defaultCur request) = BidRequest_Test request.
Proof. unfold defaultCur. destruct (Nat.eqb _ _); reflexivity. Qed.

Lemma defaultCur_cases (request : BidRequest) :
  (BidRequest_Cur request = []
   ∧ defaultCur request = set_Cur request [defaultCurrency])
  ∨ (BidRequest_Cur request ≠ [] ∧ defaultCur request = request).
Proof.
  unfold defaultCur. destruct (BidRequest_Cur request) as [|c cur] eqn:Hcur; cbn.
  - left. split; reflexivity.
  - right. split; [discriminate | reflexivity].
Qed.

Lemma defaultCur_idem (request : BidRequest) :
  defaultCur (defaultCur request) = defaultCur request.
Proof.
  destruct (defaultCur_cases request) as [[_ ->]|[Hne Heq]].
  - reflexivity.
  - rewrite Heq. assumption.
Qed.

(** The request a turn leaves behind. *)
Lemma collectResponse_request (bidder : bidderAdapter) (bidAdjustment : float)
    (conversions : Conversions) (st st' : collector) (httpInfo : httpCallInfo) :
  collectResponse bidder bidAdjustment conversions st httpInfo = Ret st' →
  c_request st'
  = match info_err httpInfo,
          (MakeBids (Bidder bidder) (c_request st)
             (info_request httpInfo) (info_response httpInfo)).1 with
    | None, Some _ => defaultCur (c_request st)
    | _, _ => c_request st
    end.
Proof.
  intros H. apply collectResponse_inv in H as (seatBid & _ & H).
  destruct H as [(e & -> & ->) | [(moreErrs & -> & -> & ->) | H]];
    [reflexivity | reflexivity |].
  destruct H as (bidResponse & moreErrs & typedBids & errs & rate & rateErr
                 & currency & -> & -> & _ & _ & H).
  destruct rateErr; [subst st' | destruct H as (bids & _ & ->)]; reflexivity.
Qed.

Lemma collect_request (bidder : bidderAdapter) (bidAdjustment : float)
    (conversions : Conversions) (responses : list httpCallInfo)
    (st st' : collector) :
  collect bidder bidAdjustment conversions responses st = Ret st' →
  c_request st' = c_request st ∨ c_request st' = defaultCur (c_request st).
Proof.
  revert st. induction responses as [|httpInfo rest IH]; intros st H; cbn in H.
  - injection H as <-. left. reflexivity.
  - bind_inv H. apply IH in H. apply collectResponse_request in Hrun.
    rewrite Hrun in H.
    destruct (info_err httpInfo); [assumption|].
    destruct (MakeBids _ _ _ _).1; [|assumption].
    rewrite defaultCur_idem in H. right. destruct H; assumption.
Qed.

(** The traces a turn appends, and the [Test] flag it leaves. *)
Lemma collectResponse_httpCalls (bidder : bidderAdapter)
    (bidAdjustment : float) (conversions : Conversions)
    (st st' : collector) (httpInfo : httpCallInfo) :
  collectResponse bidder bidAdjustment conversions st httpInfo = Ret st' →
  BidRequest_Test (c_request st') = BidRequest_Test (c_request st)
  ∧ ∃ calls,
      seatBid_httpCalls (c_seatBid st')
      = seatBid_httpCalls (c_seatBid st) ++ calls
      ∧ length calls
        = if BidRequest_Test (c_request st) =? 1 then 1%nat else 0%nat.
Proof.
  intros H. apply collectResponse_inv in H as (seatBid & Hcap & H).
  apply captureHttpCall_inv in Hcap as (_ & _ & _ & Hcalls).
  destruct H as [(e & _ & ->) | [(moreErrs & _ & _ & ->) | H]];
    [split; [reflexivity | exact Hcalls] .. |].
  destruct H as (bidResponse & moreErrs & typedBids & errs & rate & rateErr
                 & currency & _ & _ & _ & _ & H).
  destruct rateErr; [subst st' | destruct H as (bids & _ & ->)]; cbn;
    (split; [apply defaultCur_Test | exact Hcalls]).
Qed.

Lemma collect_httpCalls (bidder : bidderAdapter) (bidAdjustment : float)
    (conversions : Conversions) (responses : list httpCallInfo)
    (st st' : collector) :
  collect bidder bidAdjustment conversions responses st = Ret st' →
  BidRequest_Test (c_request st') = BidRequest_Test (c_request st)
  ∧ length (seatBid_httpCalls (c_seatBid st'))
    = (length (seatBid_httpCalls (c_seatBid st))
       + if (BidRequest_Test (c_request st) =? 1)%Z
         then length responses else 0)%nat.
Proof.
  revert st. induction responses as [|httpInfo rest IH]; intros st H; cbn in H.
  - injection H as <-. split; [reflexivity|].
    destruct (_ =? 1); cbn; lia.
  - bind_inv H. apply IH in H as [HT Hlen].
    apply collectResponse_httpCalls in Hrun as (HT' & calls & Hcalls & Hn).
    split; [congruence|].
    rewrite Hlen, HT', Hcalls, length_app, Hn.
    destruct (_ =? 1); cbn; lia.
Qed.

(** ** [requestBid] *)

(** The results that reach the channel: as many as there are requests,
    when the completion order neither loses nor invents one. *)
Lemma requestBid_inv (bidder : bidderAdapter)
    (completion : list httpCallInfo → list httpCallInfo)
    (ctx : context.Context) (request : BidRequest) (name : BidderName)
    (bidAdjustment : float) (conversions : Conversions)
    (reqInfo : option ExtraRequestInfo)
    (reqData : list (option RequestData)) (errs : list error)
    (result : BidRequest * (option pbsOrtbSeatBid * list error)) :
  MakeRequests (Bidder bidder) request reqInfo = (reqData, errs) →
  reqData ≠ [] →
  requestBid bidder completion ctx request name bidAdjustment conversions
    reqInfo = Ret result →
  ∃ (responses : list httpCallInfo) (st : collector),
    ((∀ l, length (completion l) = length l) →
     length responses = length reqData)
    ∧ collect bidder bidAdjustment conversions responses
        {| c_request := request;
           c_seatBid := {| seatBid_bids := [];
                           seatBid_currency := defaultCurrency;
                           seatBid_httpCalls := [];
                           seatBid_ext := EmptyString |};
           c_errs := errs |} = Ret st
    ∧ result = (c_request st, (Some (c_seatBid st), c_errs st)).
Proof.
  intros HMR Hne H. unfold exchange.requestBid in H. rewrite HMR in H.
  destruct reqData as [|one reqData]; [done|].
  cbn [length Nat.eqb] in H.
  bind_inv H as responses Hresponses. bind_inv H as st Hcollect.
  injection H as <-.
  exists responses, st. split; [|split; [assumption | reflexivity]].
  intros Hlen. destruct reqData as [|two reqData].
  - cbn in Hresponses. bind_inv Hresponses as r Hr.
    injection Hresponses as <-. reflexivity.
  - cbn [length Nat.eqb] in Hresponses. bind_inv Hresponses as rs Hrs.
    injection Hresponses as <-.
    rewrite Hlen, length_fmap.
    apply mapM_outcome_length in Hrs. exact Hrs.
Qed.

(** The two ways [requestBid] can go, by the number of outbound
    requests. *)
Lemma requestBid_cases (bidder : bidderAdapter)
    (completion : list httpCallInfo → list httpCallInfo)
    (ctx : context.Context) (request : BidRequest) (name : BidderName)
    (bidAdjustment : float) (conversions : Conversions)
    (reqInfo : option ExtraRequestInfo)
    (reqData : list (option RequestData)) (errs : list error) :
  MakeRequests (Bidder bidder) request reqInfo = (reqData, errs) →
  (reqData = []
   ∧ requestBid bidder completion ctx request name bidAdjustment conversions
       reqInfo
     = Ret (request,
            (None,
             match errs with
             | [] => [FailedToRequestBids noRequestsMessage]
             | _ :: _ => errs
             end)))
  ∨ (reqData ≠ []
     ∧ ∀ request' errs',
         requestBid bidder completion ctx request name bidAdjustment
           conversions reqInfo
         ≠ Ret (request', (None, errs'))).
Proof.
  intros HMR. destruct reqData as [|one reqData].
  - left. split; [reflexivity|].
    unfold exchange.requestBid. rewrite HMR. cbn.
    destruct errs; reflexivity.
  - right. split; [discriminate|]. intros request' errs' H.
    eapply requestBid_inv in H as (responses & st & _ & _ & H);
      [|exact HMR|discriminate].
    discriminate.
Qed.

(** C1, as the code has it. When [MakeRequests] returns no outbound
    request, [requestBid] returns a nil seat-bid with the plugin's errors,
    or, when there are none, with the single error
    [FailedToRequestBids] whose message starts with the words
    The adapter failed;
    the request is left as it was. When [MakeRequests] returns at least
    one outbound request, [requestBid] never returns a nil seat-bid. *)
Theorem requestBid_nil_seatBid (bidder : bidderAdapter)
    (completion : list httpCallInfo → list httpCallInfo)
    (ctx : context.Context) (request : BidRequest) (name : BidderName)
    (bidAdjustment : float) (conversions : Conversions)
    (reqInfo : option ExtraRequestInfo)
    (reqData : list (option RequestData)) (errs : list error) :
  MakeRequests (Bidder bidder) request reqInfo = (reqData, errs) →
  (reqData = []
   ∧ requestBid bidder completion ctx request name bidAdjustment conversions
       reqInfo
     = Ret (request,
            (None,
             match errs with
             | [] => [FailedToRequestBids
                        "The adapter failed to generate any bid requests, but also failed to generate an error explaining why"]
             | _ :: _ => errs
             end)))
  ∨ (reqData ≠ []
     ∧ ∀ request' errs',
         requestBid bidder completion ctx request name bidAdjustment
           conversions reqInfo
         ≠ Ret (request', (None, errs'))).
Proof.
  exact (requestBid_cases bidder completion ctx request name bidAdjustment
           conversions reqInfo reqData errs).
Qed.

(** C4. The seat-bid [requestBid] returns holds one trace per outbound
    request when [request.Test] is 1 and none otherwise; so, with at least
    one result processed, [httpCalls] is non-empty exactly when
    [request.Test] is 1. The completion order only has to deliver as many
    results as there are requests. *)
Theorem httpCalls_iff_test (bidder : bidderAdapter)
    (completion : list httpCallInfo → list httpCallInfo)
    (ctx : context.Context) (request request' : BidRequest)
    (name : BidderName) (bidAdjustment : float) (conversions : Conversions)
    (reqInfo : option ExtraRequestInfo)
    (seatBid : pbsOrtbSeatBid) (errs : list error) :
  (∀ l, length (completion l) = length l) →
  requestBid bidder completion ctx request name bidAdjustment conversions
    reqInfo = Ret (request', (Some seatBid, errs)) →
  length (seatBid_httpCalls seatBid)
  = (if BidRequest_Test request =? 1
     then length (MakeRequests (Bidder bidder) request reqInfo).1
     else 0%nat)
  ∧ (seatBid_httpCalls seatBid ≠ [] ↔ BidRequest_Test request = 1).
Proof.
  intros Hlen H.
  destruct (MakeRequests (Bidder bidder) request reqInfo)
    as [reqData errs0] eqn:HMR.
  destruct (requestBid_cases bidder completion ctx request name
              bidAdjustment conversions reqInfo reqData errs0 HMR)
    as [[_ Hnil] | [Hne _]]; [congruence|].
  eapply requestBid_inv in H as (responses & st & Hn & Hcollect & H);
    [|exact HMR|exact Hne].
  injection H as -> -> ->. specialize (Hn Hlen).
  apply collect_httpCalls in Hcollect as [_ Hcalls]. cbn in Hcalls.
  rewrite Hn in Hcalls. cbn [fst].
  assert (length reqData ≠ 0%nat) by (destruct reqData; [done | discriminate]).
  destruct (Z.eqb_spec (BidRequest_Test request) 1) as [Heq|Hneq].
  - split; [exact Hcalls|]. split; [intros _; exact Heq|].
    intros _ Hempty. rewrite Hempty in Hcalls. cbn in Hcalls. lia.
  - split; [exact Hcalls|]. split; [|done].
    intros Hnonempty. destruct (seatBid_httpCalls (c_seatBid st)); [done|].
    discriminate.
Qed.

(** C8. [requestBid] hands the request back either as it received it,
    or, when its [Cur] was empty, with [Cur] set to the one-element list
    of USD and every other field as it was. A turn of the loop writes
    [Cur] exactly when it processes a bid response (no error on the call,
    a non-nil answer from [MakeBids]) and finds [Cur] empty. *)
Theorem request_only_Cur_defaulted (bidder : bidderAdapter)
    (completion : list httpCallInfo → list httpCallInfo)
    (ctx : context.Context) (request request' : BidRequest)
    (name : BidderName) (bidAdjustment : float) (conversions : Conversions)
    (reqInfo : option ExtraRequestInfo)
    (result : option pbsOrtbSeatBid * list error) :
  requestBid bidder completion ctx request name bidAdjustment conversions
    reqInfo = Ret (request', result) →
  (request' = request
   ∨ (BidRequest_Cur request = [] ∧ request' = set_Cur request ["USD"]))
  ∧ ∀ (st st' : collector) (httpInfo : httpCallInfo),
      collectResponse bidder bidAdjustment conversions st httpInfo = Ret st' →
      c_request st'
      = match info_err httpInfo,
              (MakeBids (Bidder bidder) (c_request st)
                 (info_request httpInfo) (info_response httpInfo)).1,
              BidRequest_Cur (c_request st) with
        | None, Some _, [] => set_Cur (c_request st) ["USD"]
        | _, _, _ => c_request st
        end.
Proof.
  intros H. split.
  - destruct (MakeRequests (Bidder bidder) request reqInfo)
      as [reqData errs0] eqn:HMR.
    destruct (requestBid_cases bidder completion ctx request name
                bidAdjustment conversions reqInfo reqData errs0 HMR)
      as [[_ Hnil] | [Hne _]].
    + rewrite Hnil in H. injection H as <- _. left. reflexivity.
    + eapply requestBid_inv in H as (responses & st & _ & Hcollect & H);
        [|exact HMR|exact Hne].
      injection H as -> _. apply collect_request in Hcollect. cbn in Hcollect.
      destruct Hcollect as [->| ->]; [left; reflexivity|].
      destruct (defaultCur_cases request) as [[Hcur ->]|[_ ->]];
        [right; split; [assumption | reflexivity] | left; reflexivity].
  - intros st st' httpInfo Hturn.
    rewrite (collectResponse_request _ _ _ _ _ _ Hturn).
    destruct (info_err httpInfo); [reflexivity|].
    destruct (MakeBids _ _ _ _).1; [|reflexivity].
    unfold defaultCur. destruct (BidRequest_Cur (c_request st)); reflexivity.
Qed.

(** ** Currency resolution *)

Lemma resolveCurrency_first (conversions : Conversions) (from : string)
    (pre post : list string) (c : string) (rate rate0 : float)
    (err0 : option error) (currency0 : string) :
  Forall (λ x, (GetRate conversions from x).2 ≠ None) pre →
  GetRate conversions from c = (rate, None) →
  resolveCurrency conversions from (pre ++ c :: post) rate0 err0 currency0
  = (rate, None, c).
Proof.
  intros Hpre Hc. revert rate0 err0.
  induction Hpre as [|x pre Hx _ IH]; intros rate0 err0; cbn.
  - rewrite Hc. reflexivity.
  - destruct (GetRate conversions from x) as [r [e|]]; [apply IH | done].
Qed.

Lemma resolveCurrency_all_fail (conversions : Conversions) (from : string)
    (cur : list string) (rate0 : float) (err0 : option error)
    (currency0 : string) :
  cur ≠ [] →
  Forall (λ x, (GetRate conversions from x).2 ≠ None) cur →
  ∃ c rate e,
    last cur = Some c
    ∧ GetRate conversions from c = (rate, Some e)
    ∧ resolveCurrency conversions from cur rate0 err0 currency0
      = (rate, Some e, currency0).
Proof.
  intros Hne Hall. revert rate0 err0.
  induction Hall as [|x cur Hx Hall IH]; intros rate0 err0; [done|].
  cbn [resolveCurrency].
  destruct (GetRate conversions from x) as [r [e|]] eqn:Hrate; [|done].
  destruct cur as [|y cur].
  - exists x, r, e. cbn. repeat split. assumption.
  - destruct (IH ltac:(discriminate) r (Some e)) as (c & rate & e' & Hlast & Hc & Hres).
    exists c, rate, e'. repeat split; [|assumption..].
    rewrite last_cons, Hlast. reflexivity.
Qed.

(** C3. A turn that processes a bid response walks [request.Cur] (read
    after an empty list has been replaced by the one-element list of
    USD) in order. If the code [c] is the first for which [GetRate]
    succeeds, the seat-bid currency becomes [c] whatever follows [c] in
    the list, the bids are materialized with the rate of [c], and no
    conversion error is appended. If [GetRate] fails for every code, only
    the error of the last code is appended, after the errors of the
    enrichment step, and the bids and the currency of the seat-bid stay
    as they were. *)
Theorem currency_first_match_or_last_error
    (bidder : bidderAdapter) (bidAdjustment : float)
    (conversions : Conversions) (st st' : collector)
    (httpInfo : httpCallInfo)
    (bidResponse : BidderResponse) (moreErrs : list error) :
  info_err httpInfo = None →
  MakeBids (Bidder bidder) (c_request st)
    (info_request httpInfo) (info_response httpInfo)
  = (Some bidResponse, moreErrs) →
  collectResponse bidder bidAdjustment conversions st httpInfo = Ret st' →
  let from := responseCurrency bidResponse in
  let fails := λ x, (GetRate conversions from x).2 ≠ None in
  c_request st' = defaultCur (c_request st)
  ∧ ∃ typedBids errs,
      enrichIfApp (c_request st') (BidderResponse_Bids bidResponse)
        (c_errs st ++ moreErrs) = Ret (typedBids, errs)
      ∧ (∀ pre c post rate,
            BidRequest_Cur (c_request st') = pre ++ c :: post →
            Forall fails pre →
            GetRate conversions from c = (rate, None) →
            seatBid_currency (c_seatBid st') = c
            ∧ materializeBids bidAdjustment rate typedBids
                (seatBid_bids (c_seatBid st))
              = Ret (seatBid_bids (c_seatBid st'))
            ∧ c_errs st' = errs)
      ∧ (Forall fails (BidRequest_Cur (c_request st')) →
         ∃ c rate e,
           last (BidRequest_Cur (c_request st')) = Some c
           ∧ GetRate conversions from c = (rate, Some e)
           ∧ c_errs st' = errs ++ [e]
           ∧ seatBid_bids (c_seatBid st') = seatBid_bids (c_seatBid st)
           ∧ seatBid_currency (c_seatBid st')
             = seatBid_currency (c_seatBid st)).
Proof.
  intros Herr HMB H from fails. subst from fails.
  pose proof (collectResponse_request _ _ _ _ _ _ H) as Hreq.
  rewrite Herr, HMB in Hreq. cbn in Hreq.
  split; [exact Hreq|].
  apply collectResponse_inv in H as (seatBid & Hcap & H).
  apply captureHttpCall_inv in Hcap as (Hbids & Hcurrency & _ & _).
  destruct H as [(e & He & _) | [(moreErrs' & _ & HMB' & _) | H]];
    [congruence | congruence |].
  destruct H as (bidResponse' & moreErrs' & typedBids & errs & rate0 & rateErr
                 & currency & _ & HMB' & Hres & Henrich & H).
  rewrite HMB in HMB'. injection HMB' as <- <-.
  exists typedBids, errs. rewrite Hreq. split; [exact Henrich|]. split.
  - intros pre c post rate Hcur Hpre Hc.
    rewrite Hcur in Hres.
    rewrite (resolveCurrency_first conversions _ pre post c rate _ _ _
               Hpre Hc) in Hres.
    injection Hres as <- <- <-. destruct H as (bids & Hmat & ->). cbn.
    rewrite <- Hbids. repeat split. exact Hmat.
  - intros Hall.
    assert (BidRequest_Cur (defaultCur (c_request st)) ≠ []) as Hne.
    { destruct (defaultCur_cases (c_request st)) as [[_ ->]|[Hne ->]];
        [discriminate | exact Hne]. }
    destruct (resolveCurrency_all_fail conversions _ _ 0%float None
                (seatBid_currency seatBid) Hne Hall)
      as (c & rate & e & Hlast & Hc & Hres').
    rewrite Hres' in Hres. injection Hres as <- <- <-. subst st'. cbn.
    exists c, rate, e. repeat split; assumption.
Qed.

(** ** Bid materialization *)

Lemma materializeBids_entries (bidAdjustment conversionRate : float)
    (entries : list TypedBid) (bids : list pbsOrtbBid) :
  materializeBids bidAdjustment conversionRate (Some <$> entries) bids
  = Ret (bids ++ (materializeBid bidAdjustment conversionRate <$> entries)).
Proof.
  revert bids. induction entries as [|tb entries IH]; intros bids; cbn.
  - rewrite app_nil_r. reflexivity.
  - rewrite IH, <- app_assoc. reflexivity.
Qed.

Lemma materializeBids_inv (bidAdjustment conversionRate : float)
    (typedBids : list (option TypedBid)) (bids bids' : list pbsOrtbBid) :
  materializeBids bidAdjustment conversionRate typedBids bids = Ret bids' →
  ∃ entries,
    typedBids = Some <$> entries
    ∧ bids' = bids ++ (materializeBid bidAdjustment conversionRate <$> entries).
Proof.
  revert bids. induction typedBids as [|[tb|] rest IH]; intros bids H; cbn in H.
  - injection H as <-. exists []. rewrite app_nil_r. split; reflexivity.
  - apply IH in H as (entries & -> & ->). exists (tb :: entries).
    cbn. rewrite <- app_assoc. split; reflexivity.
  - discriminate.
Qed.

(** An entry without a [Bid] is materialized with a nil bid and with its
    own type, video and deal priority. *)
Lemma materializeBid_nil (bidAdjustment conversionRate : float)
    (tb : TypedBid) :
  TypedBid_Bid tb = None →
  materializeBid bidAdjustment conversionRate tb
  = {| pbsOrtbBid_bid := None;
       pbsOrtbBid_bidType := TypedBid_BidType tb;
       pbsOrtbBid_bidTargets := ∅;
       pbsOrtbBid_bidVideo := TypedBid_BidVideo tb;
       pbsOrtbBid_dealPriority := TypedBid_DealPriority tb |}.
Proof. intros Hnil. unfold materializeBid. rewrite Hnil. reflexivity. Qed.

(** ** Native enrichment *)

Lemma enrichNativeBids_nil_native (request : BidRequest)
    (typedBids : list (option TypedBid)) (errs : list error) (tb : TypedBid) :
  Some tb ∈ typedBids →
  TypedBid_Bid tb = None →
  TypedBid_BidType tb = BidTypeNative →
  enrichNativeBids request typedBids errs = Panic.
Proof.
  intros Hin Hnil Hnative. revert errs.
  induction typedBids as [|[tb0|] rest IH]; intros errs.
  - apply elem_of_nil in Hin. destruct Hin.
  - apply elem_of_cons in Hin as [[= <-]|Hin].
    + cbn. rewrite Hnative, Hnil. reflexivity.
    + cbn [exchange.enrichNativeBids].
      match goal with |- ?m ≫= _ = _ => destruct m as [[tb' errs']|] end;
        [|reflexivity].
      rewrite bind_Ret, (IH Hin). reflexivity.
  - reflexivity.
Qed.

Lemma defaultCur_App (request : BidRequest) :
  BidRequest_App (defaultCur request) = BidRequest_App request.
Proof. unfold defaultCur. destruct (Nat.eqb _ _); reflexivity. Qed.

(** C9, where the code departs from it. In a request that has an [App],
    a turn that processes a bid response holding an entry of type native
    without a [Bid] does not return: [addNativeTypes] reads [bid.AdM]
    through the nil pointer. No entry of the response is appended. *)
Theorem nil_native_bid_under_app_panics
    (bidder : bidderAdapter) (bidAdjustment : float)
    (conversions : Conversions) (st : collector) (httpInfo : httpCallInfo)
    (bidResponse : BidderResponse) (moreErrs : list error) (tb : TypedBid) :
  info_err httpInfo = None →
  MakeBids (Bidder bidder) (c_request st)
    (info_request httpInfo) (info_response httpInfo)
  = (Some bidResponse, moreErrs) →
  is_Some (BidRequest_App (c_request st)) →
  Some tb ∈ BidderResponse_Bids bidResponse →
  TypedBid_Bid tb = None →
  TypedBid_BidType tb = BidTypeNative →
  collectResponse bidder bidAdjustment conversions st httpInfo = Panic.
Proof.
  intros Herr HMB [app Happ] Hin Hnil Hnative.
  unfold exchange.collectResponse.
  destruct (captureHttpCall _ _ _) as [seatBid|]; [|reflexivity].
  rewrite bind_Ret, Herr, HMB.
  destruct (resolveCurrency _ _ _ _ _ _) as [[rate rateErr] currency].
  unfold exchange.enrichIfApp. rewrite defaultCur_App, Happ.
  rewrite (enrichNativeBids_nil_native _ _ _ tb Hin Hnil Hnative).
  reflexivity.
Qed.


(** Markup that is the JSON literal null parses without error to a nil
    pointer, so neither disjunct of the guard of [addNativeTypes] is
    reached: reading [nativeMarkup.Assets] panics. *)
Lemma addNativeTypes_null_markup (b : Bid) (request : BidRequest) :
  json_Unmarshal_Response (Bid_AdM b) = inr None →
  addNativeTypes (Some b) request = Panic.
Proof. intros Hnull. unfold exchange.addNativeTypes. rewrite Hnull. reflexivity. Qed.









(** ** Prices within one turn *)


Lemma enrichNativeBids_inv (request : BidRequest)
    (typedBids typedBids' : list (option TypedBid)) (errs errs' : list error) :
  enrichNativeBids request typedBids errs = Ret (typedBids', errs') →
  Forall2 sameButAdM typedBids typedBids'.
Proof.
  revert typedBids' errs errs'.
  induction typedBids as [|[tb|] rest IH]; intros typedBids' errs errs' H.
  - injection H as <- <-. constructor.
  - cbn [exchange.enrichNativeBids] in H.
    bind_inv H as r Hhead. destruct r as [tb' errs1].
    bind_inv H as r Hrest. destruct r as [rest' errs2].
    injection H as <- <-. constructor; [|exact (IH _ _ _ Hrest)].
    exists tb, tb'. do 2 (split; [reflexivity|]).
    destruct (String.eqb _ _).
    + bind_inv Hhead as r Hadd. destruct r as [[nativeMarkup|] moreErrs].
      * destruct (json_Marshal_Response nativeMarkup) as [e|markup].
        -- injection Hhead as <- _. repeat split.
        -- destruct (TypedBid_Bid tb) as [b|] eqn:Hb; [|discriminate].
           injection Hhead as <- _. cbn. repeat split.
      * injection Hhead as <- _. repeat split.
    + injection Hhead as <- _. repeat split.
  - discriminate.
Qed.


End Properties.

(** * The properties on the concrete scenario *)

(** C1: with no outbound request and no error from the plugin, the nil
    seat-bid comes with the synthesized error alone. *)
Lemma requestBid_nil_seatBid_witness :
  MakeRequests (Bidder (scenario.adapter [])) (scenario.auction None 0 []) None
  = ([], [])
  ∧ scenario.run [] (scenario.auction None 0 []) 1%float
    = Ret (scenario.auction None 0 [],
           (None,
            [FailedToRequestBids
               "The adapter failed to generate any bid requests, but also failed to generate an error explaining why"])).
Proof.
  split; [reflexivity|].
  destruct (requestBid_nil_seatBid
              scenario.json_Unmarshal_Response scenario.json_Unmarshal_Request
              scenario.json_Marshal_Response scenario.http_NewRequest_error
              (scenario.adapter []) scenario.inOrder scenario.ctx
              (scenario.auction None 0 []) "demo" 1%float scenario.rates None
              [] [] eq_refl) as [[_ H]|[H _]].
  - exact H.
  - destruct (H eq_refl).
Defined.

(** C1 as the specification words it: the message of the synthesized error
    is not the one quoted there, which lacks the leading article. *)
Lemma requestBid_message_counterexample :
  MakeRequests (Bidder (scenario.adapter [])) (scenario.auction None 0 []) None
  = ([], [])
  ∧ ∀ request',
      scenario.run [] (scenario.auction None 0 []) 1%float
      ≠ Ret (request',
             (None,
              [FailedToRequestBids
                 "adapter failed to generate any bid requests, but also failed to generate an error explaining why"])).
Proof.
  split; [reflexivity|].
  intros request' H. vm_compute in H. discriminate H.
Qed.

(** C10: the notification for the request to the slow endpoint goes out
    with the headers of that request, not with the header the plugin put on
    the notification request. *)
Lemma notification_uses_original_headers_witness :
  ∃ httpReq,
    doTimeoutNotification scenario.http_NewRequest_error
      (scenario.adapter ["http://slow"]) scenario.notification
      (scenario.outbound "http://slow")
    = Some (context.WithTimeout context.Background 200, httpReq)
    ∧ http.Request_URL httpReq = "http://notify"
    ∧ http.Request_Header httpReq
      = {[ "Content-Type" := ["application/json"] ]}
    ∧ (scenario.notification (scenario.outbound "http://slow")).1
      ≫= (λ toReq, Some (RequestData_Headers toReq))
      = Some {[ "X-Notification" := ["timeout"] ]}.
Proof.
  eexists. split; [reflexivity|].
  destruct (notification_uses_original_headers
              scenario.http_NewRequest_error
              (scenario.adapter ["http://slow"]) scenario.notification
              (scenario.outbound "http://slow") _ _ eq_refl)
    as (toReq & HtoReq & _ & Huri & _ & Hheader & _).
  injection HtoReq as <-.
  split; [exact Huri|]. split; [exact Hheader | reflexivity].
Defined.

(** C5: the endpoint that answers 503. *)
Lemma bad_status_yields_error_and_no_bids_witness :
  ∃ httpInfo,
    doRequest scenario.http_NewRequest_error (scenario.adapter ["http://down"])
      scenario.ctx (Some (scenario.outbound "http://down"))
    = Ret (httpInfo, None)
    ∧ info_response httpInfo
      = Some {| ResponseData_StatusCode := 503;
                ResponseData_Body := "unavailable";
                ResponseData_Headers := ∅ |}
    ∧ info_err httpInfo
      = Some (BadServerResponse
                "Server responded with failure status: 503. Set request.test = 1 for debugging info.").
Proof.
  destruct (bad_status_yields_error_and_no_bids
              scenario.json_Unmarshal_Response scenario.json_Unmarshal_Request
              scenario.json_Marshal_Response scenario.http_NewRequest_error
              (scenario.adapter ["http://down"]) scenario.ctx
              (scenario.outbound "http://down") 503 "unavailable" ∅
              eq_refl eq_refl ltac:(right; lia))
    as (httpInfo & Hdo & _ & Hresp & Herr & _).
  exists httpInfo. split; [exact Hdo|]. split; [exact Hresp | exact Herr].
Defined.

(** C3: the response in JPY against [GBP; USD]; no rate to GBP, a rate to
    USD. *)
Lemma currency_first_match_or_last_error_witness :
  ∃ httpInfo st',
    info_err httpInfo = None
    ∧ MakeBids (Bidder (scenario.adapter ["http://b"]))
        (scenario.auction None 0 ["GBP"; "USD"])
        (info_request httpInfo) (info_response httpInfo)
      = (Some {| BidderResponse_Currency := "JPY";
                 BidderResponse_Bids :=
                   [Some (scenario.typed
                            (Some (scenario.mkBid 100 "<div>b</div>"))
                            BidTypeBanner)] |}, [])
    ∧ collectResponse scenario.json_Unmarshal_Response
        scenario.json_Unmarshal_Request scenario.json_Marshal_Response
        (scenario.adapter ["http://b"]) 1%float scenario.rates
        (scenario.start (scenario.auction None 0 ["GBP"; "USD"])) httpInfo
      = Ret st'
    ∧ seatBid_currency (c_seatBid st') = "USD"
    ∧ c_errs st' = [].
Proof.
  pose (httpInfo :=
          {| info_request := Some (scenario.outbound "http://b");
             info_response :=
               Some {| ResponseData_StatusCode := 200;
                       ResponseData_Body := "body-b";
                       ResponseData_Headers := ∅ |};
             info_err := None |}).
  exists httpInfo.
  eexists. split; [reflexivity|]. split; [reflexivity|].
  split; [vm_compute; reflexivity|].
  match goal with |- seatBid_currency (c_seatBid ?st') = _ ∧ _ =>
    destruct (currency_first_match_or_last_error
                scenario.json_Unmarshal_Response scenario.json_Unmarshal_Request
                scenario.json_Marshal_Response
                (scenario.adapter ["http://b"]) 1%float scenario.rates
                (scenario.start (scenario.auction None 0 ["GBP"; "USD"])) st'
                httpInfo _ _ eq_refl eq_refl eq_refl)
      as (_ & typedBids & errs & Henrich & Hfirst & _)
  end.
  injection Henrich as <- <-.
  destruct (Hfirst ["GBP"] "USD" [] 0.25%float eq_refl) as (Hcur & _ & Herrs).
  - constructor; [|constructor]. vm_compute. discriminate.
  - reflexivity.
  - split; [exact Hcur | exact Herrs].
Defined.

(** C4: two outbound requests under [Test = 1] leave two traces. *)
Lemma httpCalls_iff_test_witness :
  ∃ request' seatBid errs,
    (∀ l, length (scenario.inOrder l) = length l)
    ∧ scenario.run ["http://a"; "http://down"]
        (scenario.auction None 1 ["USD"]) 1%float
      = Ret (request', (Some seatBid, errs))
    ∧ length (seatBid_httpCalls seatBid) = 2%nat
    ∧ (seatBid_httpCalls seatBid ≠ [] ↔ 1 = 1).
Proof.
  do 3 eexists. split; [reflexivity|].
  split; [vm_compute; reflexivity|].
  exact (httpCalls_iff_test
           scenario.json_Unmarshal_Response scenario.json_Unmarshal_Request
           scenario.json_Marshal_Response scenario.http_NewRequest_error
           (scenario.adapter ["http://a"; "http://down"]) scenario.inOrder
           scenario.ctx (scenario.auction None 1 ["USD"]) _ "demo" 1%float
           scenario.rates None _ _ (λ l, eq_refl) eq_refl).
Defined.

(** C8: an empty [Cur] comes back as the one-element list of USD once a bid
    response has been processed. *)
Lemma request_only_Cur_defaulted_witness :
  ∃ result,
    scenario.run ["http://a"] (scenario.auction None 0 []) 1%float
    = Ret (set_Cur (scenario.auction None 0 []) ["USD"], result)
    ∧ (set_Cur (scenario.auction None 0 []) ["USD"] = scenario.auction None 0 []
       ∨ (BidRequest_Cur (scenario.auction None 0 []) = []
          ∧ set_Cur (scenario.auction None 0 []) ["USD"]
            = set_Cur (scenario.auction None 0 []) ["USD"])).
Proof.
  eexists. split; [vm_compute; reflexivity|].
  exact (proj1 (request_only_Cur_defaulted
                  scenario.json_Unmarshal_Response
                  scenario.json_Unmarshal_Request
                  scenario.json_Marshal_Response scenario.http_NewRequest_error
                  (scenario.adapter ["http://a"]) scenario.inOrder scenario.ctx
                  (scenario.auction None 0 []) _ "demo" 1%float scenario.rates
                  None _ eq_refl)).
Defined.



(** C9: the response with a native entry that has no [Bid], in a request
    with an [App]. *)
Lemma nil_native_bid_under_app_panics_witness :
  is_Some (BidRequest_App (scenario.auction scenario.app 0 ["USD"]))
  ∧ collectResponse scenario.json_Unmarshal_Response
      scenario.json_Unmarshal_Request scenario.json_Marshal_Response
      (scenario.adapter ["http://nil"]) 1%float scenario.rates
      (scenario.start (scenario.auction scenario.app 0 ["USD"]))
      {| info_request := Some (scenario.outbound "http://nil");
         info_response :=
           Some {| ResponseData_StatusCode := 200;
                   ResponseData_Body := "body-nil";
                   ResponseData_Headers := ∅ |};
         info_err := None |}
    = Panic.
Proof.
  assert (is_Some (BidRequest_App (scenario.auction scenario.app 0 ["USD"])))
    as Happ by (eexists; reflexivity).
  split; [exact Happ|].
  apply (nil_native_bid_under_app_panics
           scenario.json_Unmarshal_Response scenario.json_Unmarshal_Request
           scenario.json_Marshal_Response
           (scenario.adapter ["http://nil"]) 1%float scenario.rates
           (scenario.start (scenario.auction scenario.app 0 ["USD"]))
           {| info_request := Some (scenario.outbound "http://nil");
              info_response :=
                Some {| ResponseData_StatusCode := 200;
                        ResponseData_Body := "body-nil";
                        ResponseData_Headers := ∅ |};
              info_err := None |}
           {| BidderResponse_Currency := "USD";
              BidderResponse_Bids := [Some (scenario.typed None BidTypeNative)] |}
           [] (scenario.typed None BidTypeNative)
           eq_refl eq_refl Happ (list_elem_of_here _ _) eq_refl eq_refl).
Defined.

(** C2, where the code departs from it. The plugin makes two outbound
    requests; the first answer holds a bid of price 2 in EUR, the second a
    bid in JPY; the request accepts GBP, then USD. The first turn converts
    to GBP (rate 0.5) and the second, finding no rate from JPY to GBP, sets
    the seat-bid currency to USD. The seat-bid returned is in USD and its
    first bid has price 2 x 1 x rate(EUR to GBP) = 1, not
    2 x 1 x rate(EUR to USD) = 4. *)
Theorem seatBid_currency_overwritten_by_later_response :
  ∃ request' seatBid b,
    scenario.run ["http://a"; "http://b"]
      (scenario.auction None 0 ["GBP"; "USD"]) 1%float
    = Ret (request', (Some seatBid, []))
    ∧ seatBid_currency seatBid = "USD"
    ∧ seatBid_bids seatBid !! 0%nat = Some b
    ∧ Bid_Price <$> pbsOrtbBid_bid b
      = Some (adjustPrice 2 1 (GetRate scenario.rates "EUR" "GBP").1)
    ∧ Bid_Price <$> pbsOrtbBid_bid b = Some 1%float
    ∧ adjustPrice 2 1
        (GetRate scenario.rates "EUR" (seatBid_currency seatBid)).1
      = 4%float
    ∧ PrimFloat.eqb 1 4 = false.
Proof.
  do 3 eexists. split; [vm_compute; reflexivity|].
  repeat split; reflexivity.
Qed.

(** * Further properties of the code *)

Section MoreProperties.
Context
  (json_Unmarshal_Response : string → error + option nativeResponse.Response)
  (json_Unmarshal_Request : string → nativeRequests.Request * option error)
  (json_Marshal_Response : nativeResponse.Response → error + string)
  (http_NewRequest_error : string → string → option error).

Local Abbreviation doRequest := (exchange.doRequest http_NewRequest_error).
Local Abbreviation doTimeoutNotification :=
  (exchange.doTimeoutNotification http_NewRequest_error).
Local Abbreviation addNativeTypes :=
  (exchange.addNativeTypes json_Unmarshal_Response json_Unmarshal_Request).
Local Abbreviation enrichNativeBids :=
  (exchange.enrichNativeBids json_Unmarshal_Response json_Unmarshal_Request
     json_Marshal_Response).
Local Abbreviation enrichIfApp :=
  (exchange.enrichIfApp json_Unmarshal_Response json_Unmarshal_Request
     json_Marshal_Response).
Local Abbreviation collectResponse :=
  (exchange.collectResponse json_Unmarshal_Response json_Unmarshal_Request
     json_Marshal_Response).
Local Abbreviation collect :=
  (exchange.collect json_Unmarshal_Response json_Unmarshal_Request
     json_Marshal_Response).
Local Abbreviation requestBid :=
  (exchange.requestBid json_Unmarshal_Response json_Unmarshal_Request
     json_Marshal_Response http_NewRequest_error).

(** ** The two lookups *)

(** X1. [getNativeImpByImpID] returns the [Native] of the first impression
    that has the given ID and a [Native]; impressions with that ID but no
    [Native] are passed over. It fails, with the error Could not find native
    imp, exactly when no impression has both. *)
Theorem getNativeImpByImpID_first_match (impID : string) (imps : list Imp) :
  match getNativeImpByImpID impID imps with
  | inr native =>
      ∃ pre imp post,
        imps = pre ++ imp :: post
        ∧ Imp_ID imp = impID
        ∧ Imp_Native imp = Some native
        ∧ Forall (λ i, Imp_ID i ≠ impID ∨ Imp_Native i = None) pre
  | inl e =>
      e = errorString "Could not find native imp"
      ∧ Forall (λ i, Imp_ID i ≠ impID ∨ Imp_Native i = None) imps
  end.
Proof.
  induction imps as [|imp imps IH]; cbn.
  - split; [reflexivity | constructor].
  - destruct (Imp_Native imp) as [native|] eqn:Hnative.
    + destruct (String.eqb_spec (Imp_ID imp) impID) as [Hid|Hid].
      * exists [], imp, imps. repeat split; [assumption.. | constructor].
      * destruct (getNativeImpByImpID impID imps) as [e|native'].
        -- destruct IH as [-> Hall]. split; [reflexivity|].
           constructor; [left; exact Hid | exact Hall].
        -- destruct IH as (pre & imp' & post & -> & Hid' & Hn' & Hpre).
           exists (imp :: pre), imp', post. repeat split; [assumption..|].
           constructor; [left; exact Hid | exact Hpre].
    + destruct (getNativeImpByImpID impID imps) as [e|native'].
      * destruct IH as [-> Hall]. split; [reflexivity|].
        constructor; [right; exact Hnative | exact Hall].
      * destruct IH as (pre & imp' & post & -> & Hid' & Hn' & Hpre).
        exists (imp :: pre), imp', post. repeat split; [assumption..|].
        constructor; [right; exact Hnative | exact Hpre].
Qed.

(** X2. [getAssetByID] returns the first request asset with the given ID,
    whatever follows it; it fails exactly when no asset has the ID, with an
    error that names the ID in decimal. *)
Theorem getAssetByID_first_match (id : Z) (assets : list nativeRequests.Asset) :
  match getAssetByID id assets with
  | inr asset =>
      ∃ pre post,
        assets = pre ++ asset :: post
        ∧ nativeRequests.Asset_ID asset = id
        ∧ Forall (λ a, nativeRequests.Asset_ID a ≠ id) pre
  | inl e =>
      e = errorString ("Unable to find asset with ID:" +:+ fmt_d id
                       +:+ " in the request")
      ∧ Forall (λ a, nativeRequests.Asset_ID a ≠ id) assets
  end.
Proof.
  induction assets as [|a assets IH]; cbn.
  - split; [reflexivity | constructor].
  - destruct (Z.eqb_spec id (nativeRequests.Asset_ID a)) as [Hid|Hid].
    + exists [], assets. repeat split; [congruence | constructor].
    + destruct (getAssetByID id assets) as [e|asset].
      * destruct IH as [-> Hall]. split; [reflexivity|].
        constructor; [congruence | exact Hall].
      * destruct IH as (pre & post & -> & Hid' & Hpre).
        exists (a :: pre), post. repeat split; [assumption|].
        constructor; [congruence | exact Hpre].
Qed.

(** ** [setAssetTypes] *)

(** Splits on the tests [tempAsset.Img.Type != 0] and
    [tempAsset.Data.Type != 0] met in the goal. *)
Ltac case_types :=
  repeat match goal with
         | |- context [if negb ?b then _ else _] => destruct (negb b)
         end.

Lemma setAssetTypes_sameButTypes (asset : nativeResponse.Asset)
    (nativePayload : nativeRequests.Request) :
  sameButTypes asset (setAssetTypes asset nativePayload).1.
Proof.
  unfold setAssetTypes.
  destruct (getAssetByID _ _) as [e|tempAsset];
    destruct (nativeResponse.Asset_Img asset) as [img|] eqn:HImg;
    destruct (nativeResponse.Asset_Data asset) as [data|] eqn:HData;
    try destruct (nativeRequests.Asset_Img tempAsset) as [tempImg|];
    try destruct (nativeRequests.Asset_Data tempAsset) as [tempData|];
    case_types; cbn; rewrite ?HImg, ?HData; cbn; case_types; cbn;
    unfold sameButTypes; cbn; rewrite ?HImg, ?HData;
    repeat split; constructor; repeat split.
Qed.

(** X3. Whatever the request payload and whether or not it returns an
    error, [setAssetTypes] changes nothing of a response asset but the
    [Type] of its image and the [Type] of its data: the ID, the required
    flag, the presence of an image and of a data object, and their other
    fields stay. *)
Theorem setAssetTypes_changes_only_types (asset : nativeResponse.Asset)
    (nativePayload : nativeRequests.Request) :
  sameButTypes asset (setAssetTypes asset nativePayload).1.
Proof. exact (setAssetTypes_sameButTypes asset nativePayload). Qed.

(** X4. [setAssetTypes] returns an error exactly when the asset is not
    matched in the request: it holds an image or a data object and no
    request asset has its ID, or the first request asset with its ID lacks
    the descriptor the response asset holds. *)
Theorem setAssetTypes_error_iff_unmatched (asset : nativeResponse.Asset)
    (nativePayload : nativeRequests.Request) :
  (setAssetTypes asset nativePayload).2 = None
  ↔ matchedIn nativePayload asset = true.
Proof.
  unfold setAssetTypes, matchedIn.
  destruct (getAssetByID _ _) as [e|tempAsset];
    destruct (nativeResponse.Asset_Img asset) as [img|] eqn:HImg;
    destruct (nativeResponse.Asset_Data asset) as [data|] eqn:HData;
    try destruct (nativeRequests.Asset_Img tempAsset) as [tempImg|];
    try destruct (nativeRequests.Asset_Data tempAsset) as [tempData|];
    case_types; cbn; rewrite ?HImg, ?HData; cbn; case_types; cbn;
    (split; [intros H; first [discriminate H | reflexivity]
            | intros H; first [discriminate H | reflexivity]]).
Qed.

(** X5. When the response asset holds an image and the first request asset
    with its ID holds an image of non-zero type, [setAssetTypes] writes
    that type into the response image and leaves its URL and size. *)
Theorem setAssetTypes_copies_image_type (asset : nativeResponse.Asset)
    (nativePayload : nativeRequests.Request) (img : nativeResponse.Image)
    (tempAsset : nativeRequests.Asset) (tempImg : nativeRequests.Image) :
  nativeResponse.Asset_Img asset = Some img →
  getAssetByID (nativeResponse.Asset_ID asset)
    (nativeRequests.Request_Assets nativePayload) = inr tempAsset →
  nativeRequests.Asset_Img tempAsset = Some tempImg →
  nativeRequests.Image_Type tempImg ≠ 0 →
  nativeResponse.Asset_Img (setAssetTypes asset nativePayload).1
  = Some {| nativeResponse.Image_Type := nativeRequests.Image_Type tempImg;
            nativeResponse.Image_URL := nativeResponse.Image_URL img;
            nativeResponse.Image_W := nativeResponse.Image_W img;
            nativeResponse.Image_H := nativeResponse.Image_H img |}.
Proof.
  intros HImg Hget HtImg Htype. unfold setAssetTypes.
  rewrite HImg, Hget, HtImg.
  apply Z.eqb_neq in Htype. rewrite Htype. cbn.
  destruct (nativeResponse.Asset_Data asset) as [data|]; [|reflexivity].
  destruct (nativeRequests.Asset_Data tempAsset) as [tempData|]; [|reflexivity].
  destruct (negb _); reflexivity.
Qed.

(** X6. When the response asset holds a data object, the first request
    asset with its ID holds a data object of non-zero type, and the image
    step before it does not fail (the response asset has no image or that
    request asset has one), [setAssetTypes] writes the type into the
    response data object and leaves its label and value. *)
Theorem setAssetTypes_copies_data_type (asset : nativeResponse.Asset)
    (nativePayload : nativeRequests.Request) (data : nativeResponse.Data)
    (tempAsset : nativeRequests.Asset) (tempData : nativeRequests.Data) :
  nativeResponse.Asset_Data asset = Some data →
  getAssetByID (nativeResponse.Asset_ID asset)
    (nativeRequests.Request_Assets nativePayload) = inr tempAsset →
  nativeRequests.Asset_Data tempAsset = Some tempData →
  nativeRequests.Data_Type tempData ≠ 0 →
  nativeResponse.Asset_Img asset = None
  ∨ is_Some (nativeRequests.Asset_Img tempAsset) →
  nativeResponse.Asset_Data (setAssetTypes asset nativePayload).1
  = Some {| nativeResponse.Data_Type := nativeRequests.Data_Type tempData;
            nativeResponse.Data_Label := nativeResponse.Data_Label data;
            nativeResponse.Data_Value := nativeResponse.Data_Value data |}.
Proof.
  intros HData Hget HtData Htype Himage. unfold setAssetTypes.
  rewrite Hget. apply Z.eqb_neq in Htype.
  destruct (nativeResponse.Asset_Img asset) as [img|] eqn:HImg.
  - destruct Himage as [Hnone|[tempImg HtImg]]; [discriminate|].
    rewrite HtImg.
    destruct (negb _); cbn; rewrite HData, HtData, Htype; reflexivity.
  - rewrite HData, HtData, Htype. reflexivity.
Qed.

(** X7. When the response asset holds an image and the first request asset
    with its ID holds none, [setAssetTypes] returns the error that names
    the image and stops: the asset is left unchanged, and the type of its
    data object is not filled in even if the request asset has one. *)
Theorem setAssetTypes_image_mismatch_stops (asset : nativeResponse.Asset)
    (nativePayload : nativeRequests.Request) (img : nativeResponse.Image)
    (tempAsset : nativeRequests.Asset) :
  nativeResponse.Asset_Img asset = Some img →
  getAssetByID (nativeResponse.Asset_ID asset)
    (nativeRequests.Request_Assets nativePayload) = inr tempAsset →
  nativeRequests.Asset_Img tempAsset = None →
  setAssetTypes asset nativePayload
  = (asset,
     Some (errorString
             ("Response has an Image asset with ID:"
              +:+ fmt_d (nativeResponse.Asset_ID asset)
              +:+ " present that doesn't exist in the request"))).
Proof.
  intros HImg Hget HtImg. unfold setAssetTypes.
  rewrite HImg, Hget, HtImg. reflexivity.
Qed.

(** ** [addNativeTypes] and the enrichment loop *)

Lemma setAllAssetTypes_shape (assets : list nativeResponse.Asset)
    (nativePayload : nativeRequests.Request) (errs : list error) :
  Forall2 sameButTypes assets (setAllAssetTypes assets nativePayload errs).1
  ∧ ∃ more,
      (setAllAssetTypes assets nativePayload errs).2 = errs ++ more
      ∧ (length more ≤ length assets)%nat.
Proof.
  revert errs. induction assets as [|asset assets IH]; intros errs; cbn.
  - split; [constructor|]. exists []. rewrite app_nil_r. split; [reflexivity | done].
  - pose proof (setAssetTypes_sameButTypes asset nativePayload) as Hsame.
    destruct (setAssetTypes asset nativePayload) as [asset' e].
    match goal with
    | |- context [setAllAssetTypes assets nativePayload ?es] =>
        destruct (IH es) as (Hrest & more & Hmore & Hlen);
        destruct (setAllAssetTypes assets nativePayload es) as [rest' errs']
    end.
    cbn in *. split; [constructor; assumption|].
    destruct e as [e|].
    + exists (e :: more). rewrite Hmore, <- app_assoc. cbn. split; [reflexivity | lia].
    + exists more. split; [assumption | lia].
Qed.

Lemma getNativeImpByImpID_none (impID : string) (imps : list Imp) :
  Forall (λ i, Imp_ID i ≠ impID ∨ Imp_Native i = None) imps →
  getNativeImpByImpID impID imps = inl (errorString "Could not find native imp").
Proof.
  induction 1 as [|imp imps Himp _ IH]; cbn; [reflexivity|].
  destruct (Imp_Native imp) as [native|]; [|exact IH].
  destruct (String.eqb_spec (Imp_ID imp) impID) as [Hid|Hid]; [|exact IH].
  destruct Himp as [Hne|Hnone]; [contradiction | discriminate].
Qed.

(** X8. A markup that [addNativeTypes] returns is the one decoded from
    [bid.AdM] with nothing changed but image and data types: the version,
    the trackers, the number and order of the assets, and of each asset
    everything but those types are kept. At most one error per asset is
    reported, plus one for the request payload. *)
Theorem addNativeTypes_keeps_markup_shape (b : Bid) (request : BidRequest)
    (m' : nativeResponse.Response) (errs : list error) :
  addNativeTypes (Some b) request = Ret (Some m', errs) →
  ∃ m,
    json_Unmarshal_Response (Bid_AdM b) = inr (Some m)
    ∧ nativeResponse.Response_Ver m' = nativeResponse.Response_Ver m
    ∧ nativeResponse.Response_ImpTrackers m'
      = nativeResponse.Response_ImpTrackers m
    ∧ Forall2 sameButTypes
        (nativeResponse.Response_Assets m) (nativeResponse.Response_Assets m')
    ∧ (length errs ≤ S (length (nativeResponse.Response_Assets m)))%nat.
Proof.
  unfold exchange.addNativeTypes.
  destruct (json_Unmarshal_Response (Bid_AdM b)) as [e|[m|]];
    [discriminate | | discriminate].
  destruct (Nat.eqb _ _); [discriminate|].
  destruct (getNativeImpByImpID _ _) as [e|nativeImp]; [discriminate|].
  destruct (json_Unmarshal_Request _) as [nativePayload perr].
  match goal with
  | |- context [setAllAssetTypes ?l nativePayload ?es] =>
      destruct (setAllAssetTypes_shape l nativePayload es)
        as (Hsame & more & Hmore & Hlen);
      destruct (setAllAssetTypes l nativePayload es) as [assets errs']
  end.
  cbn in Hsame, Hmore. intros [= <- <-]. exists m. cbn.
  repeat split; [exact Hsame|].
  rewrite Hmore, length_app. destruct perr; cbn; lia.
Qed.

(** X9. When the markup decodes and has assets but no impression of the
    request has both the ID of the bid and a [Native], [addNativeTypes]
    returns no markup and the single error Could not find native imp. *)
Theorem addNativeTypes_missing_imp (b : Bid) (request : BidRequest)
    (m : nativeResponse.Response) :
  json_Unmarshal_Response (Bid_AdM b) = inr (Some m) →
  nativeResponse.Response_Assets m ≠ [] →
  Forall (λ i, Imp_ID i ≠ Bid_ImpID b ∨ Imp_Native i = None)
    (BidRequest_Imp request) →
  addNativeTypes (Some b) request
  = Ret (None, [errorString "Could not find native imp"]).
Proof.
  intros Hparse Hassets Himps. unfold exchange.addNativeTypes.
  rewrite Hparse.
  assert (Nat.eqb (length (nativeResponse.Response_Assets m)) 0 = false)
    as -> by (destruct (nativeResponse.Response_Assets m); done).
  rewrite (getNativeImpByImpID_none _ _ Himps). reflexivity.
Qed.

(** X10. A native request that does not decode does not stop the
    enrichment: its error is reported first, and the markup is still
    processed and returned, with nothing changed but image and data
    types. *)
Theorem addNativeTypes_continues_after_request_error (b : Bid)
    (request : BidRequest) (m : nativeResponse.Response) (nativeImp : Native)
    (nativePayload : nativeRequests.Request) (e : error) :
  json_Unmarshal_Response (Bid_AdM b) = inr (Some m) →
  nativeResponse.Response_Assets m ≠ [] →
  getNativeImpByImpID (Bid_ImpID b) (BidRequest_Imp request) = inr nativeImp →
  json_Unmarshal_Request (Native_Request nativeImp) = (nativePayload, Some e) →
  ∃ m' more,
    addNativeTypes (Some b) request = Ret (Some m', e :: more)
    ∧ Forall2 sameButTypes
        (nativeResponse.Response_Assets m) (nativeResponse.Response_Assets m').
Proof.
  intros Hparse Hassets Himp Hpayload. unfold exchange.addNativeTypes.
  rewrite Hparse.
  assert (Nat.eqb (length (nativeResponse.Response_Assets m)) 0 = false)
    as -> by (destruct (nativeResponse.Response_Assets m); done).
  rewrite Himp, Hpayload. cbn [app].
  destruct (setAllAssetTypes_shape (nativeResponse.Response_Assets m)
              nativePayload [e]) as (Hsame & more & Hmore & _).
  destruct (setAllAssetTypes _ _ _) as [assets errs]. cbn in *.
  exists (nativeResponse.set_Assets m assets), more. rewrite Hmore.
  split; [reflexivity | exact Hsame].
Qed.

(** X11. The enrichment loop touches native entries only: on a response
    whose entries are all present and none of type native it returns the
    entries and the errors as they were, whatever the markup of the bids
    and even for entries without a [Bid]. *)
Theorem enrichNativeBids_skips_non_native (request : BidRequest)
    (typedBids : list (option TypedBid)) (errs : list error) :
  Forall (λ o, ∃ tb, o = Some tb ∧ TypedBid_BidType tb ≠ BidTypeNative)
    typedBids →
  enrichNativeBids request typedBids errs = Ret (typedBids, errs).
Proof.
  intros Hall. revert errs.
  induction Hall as [|o typedBids (tb & -> & Htype) _ IH]; intros errs;
    [reflexivity|].
  cbn [exchange.enrichNativeBids].
  apply String.eqb_neq in Htype. rewrite Htype.
  rewrite bind_Ret, IH. reflexivity.
Qed.

(** ** [doRequest], [makeExt] and [doTimeoutNotification] *)

(** The request [doRequest] hands to the client for the outbound [rd]. *)
Local Abbreviation outgoing rd :=
  {| http.Request_Method := RequestData_Method rd;
     http.Request_URL := RequestData_Uri rd;
     http.Request_Body := RequestData_Body rd;
     http.Request_Header := RequestData_Headers rd |}.

Lemma doRequest_shape (bidder : bidderAdapter) (ctx : context.Context)
    (rd : RequestData) :
  ∃ info spawned,
    doRequest bidder ctx (Some rd) = Ret (info, spawned)
    ∧ info_request info = Some rd
    ∧ (info_err info = None → is_Some (info_response info)).
Proof.
  unfold exchange.doRequest, http_NewRequest, set_Header.
  destruct (http_NewRequest_error _ _) as [e|];
    [do 2 eexists; split; [reflexivity|]; split; [reflexivity | discriminate]|].
  cbn. destruct (Client bidder ctx _) as [e|statusCode [e|respBody] header].
  - destruct e; do 2 eexists;
      (split; [reflexivity|]; split; [reflexivity | discriminate]).
  - do 2 eexists. split; [reflexivity|]. split; [reflexivity | discriminate].
  - do 2 eexists. split; [reflexivity|]. split; [reflexivity|].
    intros _. eexists. reflexivity.
Qed.

(** X12. For every non-nil outbound request [doRequest] returns a result
    that keeps the request. The result is free of error exactly when
    [http.NewRequest] accepts the request, the client answers, the body is
    read and the status lies in [200, 400); it then holds that status, body
    and headers. On every result of [doRequest], [makeExt] returns a trace,
    which shows the URI and the body of the request. *)
Theorem doRequest_result_shape (bidder : bidderAdapter)
    (ctx : context.Context) (rd : RequestData) :
  ∃ info spawned,
    doRequest bidder ctx (Some rd) = Ret (info, spawned)
    ∧ info_request info = Some rd
    ∧ (info_err info = None
       ↔ ∃ statusCode respBody header,
           http_NewRequest_error (RequestData_Method rd) (RequestData_Uri rd)
           = None
           ∧ Client bidder ctx (outgoing rd)
             = http.DoResponse statusCode (inr respBody) header
           ∧ 200 ≤ statusCode < 400
           ∧ info_response info
             = Some {| ResponseData_StatusCode := statusCode;
                       ResponseData_Body := respBody;
                       ResponseData_Headers := header |})
    ∧ ∃ call,
        makeExt info = Ret call
        ∧ ExtHttpCall_Uri call = RequestData_Uri rd
        ∧ ExtHttpCall_RequestBody call = RequestData_Body rd.
Proof.
  unfold exchange.doRequest, http_NewRequest, set_Header.
  destruct (http_NewRequest_error _ _) as [e|] eqn:Hnew.
  { do 2 eexists. split; [reflexivity|]. split; [reflexivity|]. split.
    - split; [discriminate|]. intros (? & ? & ? & ? & _). discriminate.
    - eexists. repeat split. }
  cbn. destruct (Client bidder ctx _) as [e|statusCode [e|respBody] header]
    eqn:Hdo.
  - assert (∃ info spawned,
              match e with
              | DeadlineExceeded =>
                  Ret ({| info_request := Some rd; info_response := None;
                          info_err := Some (Timeout (Error e)) |},
                       match Bidder_TimeoutBidder (Bidder bidder) with
                       | Some tb => Some (doTimeoutNotification bidder tb rd)
                       | None => None
                       end)
              | _ => Ret ({| info_request := Some rd; info_response := None;
                             info_err := Some e |}, None)
              end = Ret (info, spawned)
              ∧ info_request info = Some rd
              ∧ is_Some (info_err info)) as (info & spawned & Heq & Hreq & Herr).
    { destruct e; do 2 eexists; (split; [reflexivity|]);
        (split; [reflexivity | eexists; reflexivity]). }
    exists info, spawned. split; [exact Heq|]. split; [exact Hreq|]. split.
    + split; [intros Hnone; rewrite Hnone in Herr; destruct Herr; discriminate|].
      intros (? & ? & ? & _ & ? & _). discriminate.
    + unfold makeExt. destruct Herr as [e' ->]. rewrite Hreq.
      eexists. repeat split.
  - do 2 eexists. split; [reflexivity|]. split; [reflexivity|]. split.
    + split; [discriminate|]. intros (? & ? & ? & _ & ? & _). discriminate.
    + eexists. repeat split.
  - do 2 eexists. split; [reflexivity|]. split; [reflexivity|]. cbn. split.
    + split.
      * intros Herr. exists statusCode, respBody, header.
        split; [reflexivity|]. split; [reflexivity|]. split; [|reflexivity].
        destruct (statusCode <? 200) eqn:H1, (400 <=? statusCode) eqn:H2;
          cbn in Herr; try discriminate Herr; lia.
      * intros (st & bd & hd & _ & [= <- <- <-] & Hrange & _).
        assert ((statusCode <? 200) || (400 <=? statusCode) = false) as ->;
          [|reflexivity].
        apply orb_false_iff. split; lia.
    + destruct ((statusCode <? 200) || (400 <=? statusCode));
        eexists; repeat split.
Qed.

(** X13. [doRequest] starts the notification goroutine exactly when
    [http.NewRequest] accepted the outbound request, the client returned
    the context's deadline error and the plugin has the [TimeoutBidder]
    capability; the error of the result is then a [Timeout] carrying the
    text of the deadline error. Any other client error is passed on as it
    is. *)
Theorem doRequest_notifies_iff_deadline (bidder : bidderAdapter)
    (ctx : context.Context) (rd : RequestData) (info : httpCallInfo)
    (spawned : option (option issuedCall)) :
  doRequest bidder ctx (Some rd) = Ret (info, spawned) →
  (is_Some spawned
   ↔ http_NewRequest_error (RequestData_Method rd) (RequestData_Uri rd) = None
     ∧ Client bidder ctx (outgoing rd) = http.DoError DeadlineExceeded
     ∧ is_Some (Bidder_TimeoutBidder (Bidder bidder)))
  ∧ (Client bidder ctx (outgoing rd) = http.DoError DeadlineExceeded →
     http_NewRequest_error (RequestData_Method rd) (RequestData_Uri rd) = None →
     info_err info = Some (Timeout "context deadline exceeded"))
  ∧ (∀ e, e ≠ DeadlineExceeded →
          Client bidder ctx (outgoing rd) = http.DoError e →
          http_NewRequest_error (RequestData_Method rd) (RequestData_Uri rd)
          = None →
          info_err info = Some e).
Proof.
  unfold exchange.doRequest, http_NewRequest, set_Header.
  destruct (http_NewRequest_error _ _) as [e|] eqn:Hnew.
  { intros [= <- <-]. split; [|split; [discriminate | intros; discriminate]].
    split; [intros [? [=]] | intros [[=] _]]. }
  cbn. destruct (Client bidder ctx _) as [e|statusCode [e|respBody] header].
  - destruct e;
      try (intros [= <- <-];
           split; [split; [intros [? [=]] | intros (_ & [=] & _)]|];
           split; [intros [=] | intros e' Hne [= <-] _; reflexivity]).
    intros [= <- <-]. split; [|split; [reflexivity | congruence]].
    destruct (Bidder_TimeoutBidder (Bidder bidder)) as [tb|].
    + split; [intros _; repeat split; eexists; reflexivity|].
      intros _. eexists. reflexivity.
    + split; [intros [? [=]] | intros (_ & _ & [? [=]])].
  - intros [= <- <-]. split; [|split; [discriminate | intros; discriminate]].
    split; [intros [? [=]] | intros (_ & [=] & _)].
  - intros [= <- <-]. split; [|split; [discriminate | intros; discriminate]].
    split; [intros [? [=]] | intros (_ & [=] & _)].
Qed.

(** X14. The notifier issues its call exactly when
    [MakeTimeoutNotification] returns a non-nil request with no error and
    [http.NewRequest] accepts the method and URI of that request; in every
    other case it gives up without a call. *)
Theorem doTimeoutNotification_issues_iff (bidder : bidderAdapter)
    (timeoutBidder : MakeTimeoutNotificationT) (req : RequestData) :
  is_Some (doTimeoutNotification bidder timeoutBidder req)
  ↔ ∃ toReq,
      timeoutBidder req = (Some toReq, [])
      ∧ http_NewRequest_error (RequestData_Method toReq)
          (RequestData_Uri toReq) = None.
Proof.
  unfold exchange.doTimeoutNotification, http_NewRequest.
  destruct (timeoutBidder req) as [[toReq|] errL].
  - destruct errL as [|e errL]; cbn.
    + destruct (http_NewRequest_error _ _) eqn:Hnew.
      * split; [intros [? [=]] | intros (t & [= <-] & Hok); congruence].
      * split; [intros _; exists toReq; split; [reflexivity | exact Hnew]|].
        intros _. eexists. reflexivity.
    + split; [intros [? [=]] | intros (t & [=] & _)].
  - split; [intros [? [=]] | intros (t & [=] & _)].
Qed.

(** ** Invariants of the collecting loop *)

Lemma resolveCurrency_currency (conversions : Conversions) (from : string)
    (cur : list string) (rate0 : float) (err0 : option error)
    (currency0 : string) :
  (resolveCurrency conversions from cur rate0 err0 currency0).2 = currency0
  ∨ (resolveCurrency conversions from cur rate0 err0 currency0).2 ∈ cur.
Proof.
  revert rate0 err0. induction cur as [|c cur IH]; intros rate0 err0; cbn.
  - left. reflexivity.
  - destruct (GetRate conversions from c) as [r [e|]]; cbn.
    + destruct (IH r (Some e)) as [H|H]; [left; exact H|].
      right. apply list_elem_of_further. exact H.
    + right. apply list_elem_of_here.
Qed.

Lemma enrichNativeBids_errs (request : BidRequest)
    (typedBids typedBids' : list (option TypedBid)) (errs errs' : list error) :
  enrichNativeBids request typedBids errs = Ret (typedBids', errs') →
  ∃ more, errs' = errs ++ more.
Proof.
  revert typedBids' errs errs'.
  induction typedBids as [|[tb|] rest IH]; intros typedBids' errs errs' H.
  - injection H as <- <-. exists []. rewrite app_nil_r. reflexivity.
  - cbn [exchange.enrichNativeBids] in H.
    bind_inv H as r Hhead. destruct r as [tb' errs1].
    bind_inv H as r Hrest. destruct r as [rest' errs2].
    injection H as <- <-. apply IH in Hrest as [more2 ->].
    assert (∃ more1, errs1 = errs ++ more1) as [more1 ->].
    { destruct (String.eqb _ _).
      - bind_inv Hhead as r Hadd. destruct r as [[nativeMarkup|] moreErrs].
        + destruct (json_Marshal_Response nativeMarkup) as [e|markup].
          * injection Hhead as _ <-. exists (moreErrs ++ [e]).
            rewrite app_assoc. reflexivity.
          * destruct (TypedBid_Bid tb); [|discriminate].
            injection Hhead as _ <-. exists moreErrs. reflexivity.
        + injection Hhead as _ <-. exists moreErrs. reflexivity.
      - injection Hhead as _ <-. exists []. rewrite app_nil_r. reflexivity. }
    exists (more1 ++ more2). rewrite app_assoc. reflexivity.
  - discriminate.
Qed.

Lemma defaultCur_Cur_elem (request : BidRequest) (x : string) :
  x ∈ BidRequest_Cur request → x ∈ BidRequest_Cur (defaultCur request).
Proof.
  destruct (defaultCur_cases request) as [[Hnil _]|[_ ->]]; [|done].
  rewrite Hnil. intros H. apply elem_of_nil in H. destruct H.
Qed.

(** What one turn keeps and what it may add. *)
Lemma collectResponse_frame (bidder : bidderAdapter) (bidAdjustment : float)
    (conversions : Conversions) (st st' : collector) (httpInfo : httpCallInfo) :
  collectResponse bidder bidAdjustment conversions st httpInfo = Ret st' →
  (∃ more, c_errs st' = c_errs st ++ more)
  ∧ (∃ new,
        seatBid_bids (c_seatBid st') = seatBid_bids (c_seatBid st) ++ new
        ∧ Forall (λ pb, pbsOrtbBid_bidTargets pb = ∅) new)
  ∧ seatBid_ext (c_seatBid st') = seatBid_ext (c_seatBid st)
  ∧ (seatBid_currency (c_seatBid st') = seatBid_currency (c_seatBid st)
     ∨ seatBid_currency (c_seatBid st') ∈ BidRequest_Cur (c_request st')).
Proof.
  intros H. apply collectResponse_inv in H as (seatBid & Hcap & H).
  apply captureHttpCall_inv in Hcap as (Hbids & Hcurrency & Hext & _).
  assert (∃ new : list pbsOrtbBid,
             seatBid_bids seatBid = seatBid_bids (c_seatBid st) ++ new
             ∧ Forall (λ pb, pbsOrtbBid_bidTargets pb = ∅) new) as Hsame.
  { exists []. rewrite app_nil_r. split; [exact Hbids | constructor]. }
  destruct H as [(e & _ & ->) | [(moreErrs & _ & _ & ->) | H]]; cbn.
  - split; [eexists; reflexivity|]. split; [exact Hsame|].
    split; [exact Hext | left; exact Hcurrency].
  - split; [eexists; reflexivity|]. split; [exact Hsame|].
    split; [exact Hext | left; exact Hcurrency].
  - destruct H as (bidResponse & moreErrs & typedBids & errs & rate & rateErr
                   & currency & _ & _ & Hres & Henrich & H).
    assert (∃ more, errs = c_errs st ++ more) as [more Herrs].
    { unfold exchange.enrichIfApp in Henrich.
      destruct (BidRequest_App _).
      - apply enrichNativeBids_errs in Henrich as [more ->].
        exists (moreErrs ++ more). rewrite app_assoc. reflexivity.
      - injection Henrich as _ <-. exists moreErrs. reflexivity. }
    assert (currency = seatBid_currency (c_seatBid st)
            ∨ currency ∈ BidRequest_Cur (defaultCur (c_request st))) as Hcur.
    { pose proof (resolveCurrency_currency conversions
                    (responseCurrency bidResponse)
                    (BidRequest_Cur (defaultCur (c_request st)))
                    0%float None (seatBid_currency seatBid)) as Hc.
      rewrite Hres in Hc. cbn in Hc. rewrite Hcurrency in Hc. exact Hc. }
    destruct rateErr as [e|].
    + subst st'. cbn. split; [exists (more ++ [e]); rewrite Herrs, app_assoc; reflexivity|].
      split; [exact Hsame|]. split; [exact Hext | exact Hcur].
    + destruct H as (bids & Hmat & ->). cbn.
      split; [exists more; exact Herrs|].
      split; [|split; [exact Hext | exact Hcur]].
      apply materializeBids_inv in Hmat as (entries & _ & ->). cbn.
      exists (materializeBid bidAdjustment rate <$> entries).
      split; [rewrite Hbids; reflexivity|].
      apply Forall_fmap, Forall_true. intros tb. reflexivity.
Qed.

Lemma collect_frame (bidder : bidderAdapter) (bidAdjustment : float)
    (conversions : Conversions) (responses : list httpCallInfo)
    (st st' : collector) :
  collect bidder bidAdjustment conversions responses st = Ret st' →
  (∃ more, c_errs st' = c_errs st ++ more)
  ∧ (∃ new,
        seatBid_bids (c_seatBid st') = seatBid_bids (c_seatBid st) ++ new
        ∧ Forall (λ pb, pbsOrtbBid_bidTargets pb = ∅) new)
  ∧ seatBid_ext (c_seatBid st') = seatBid_ext (c_seatBid st)
  ∧ (seatBid_currency (c_seatBid st') = seatBid_currency (c_seatBid st)
     ∨ seatBid_currency (c_seatBid st') ∈ BidRequest_Cur (c_request st')).
Proof.
  revert st. induction responses as [|httpInfo rest IH]; intros st H; cbn in H.
  - injection H as <-. split; [exists []; rewrite app_nil_r; reflexivity|].
    split; [exists []; rewrite app_nil_r; split; [reflexivity | constructor]|].
    split; [reflexivity | left; reflexivity].
  - bind_inv H as st1 Hturn.
    pose proof (collect_request _ _ _ _ _ _ _ _ _ H) as Hreq.
    apply IH in H as ((more2 & He2) & (new2 & Hb2 & Ht2) & Hext2 & Hc2).
    apply collectResponse_frame in Hturn
      as ((more1 & He1) & (new1 & Hb1 & Ht1) & Hext1 & Hc1).
    split; [exists (more1 ++ more2); rewrite He2, He1, app_assoc; reflexivity|].
    split.
    { exists (new1 ++ new2). rewrite Hb2, Hb1, app_assoc.
      split; [reflexivity | apply Forall_app; split; assumption]. }
    split; [congruence|].
    destruct Hc2 as [Hc2|Hc2]; [|right; exact Hc2].
    rewrite Hc2. destruct Hc1 as [Hc1|Hc1]; [left; exact Hc1|].
    right. destruct Hreq as [->| ->]; [exact Hc1|].
    apply defaultCur_Cur_elem. exact Hc1.
Qed.

(** X15. The currency of the seat-bid [requestBid] returns is USD or one
    of the codes of [request.Cur] as the request came in. *)
Theorem seatBid_currency_from_Cur_or_default (bidder : bidderAdapter)
    (completion : list httpCallInfo → list httpCallInfo)
    (ctx : context.Context) (request request' : BidRequest)
    (name : BidderName) (bidAdjustment : float) (conversions : Conversions)
    (reqInfo : option ExtraRequestInfo)
    (seatBid : pbsOrtbSeatBid) (errs : list error) :
  requestBid bidder completion ctx request name bidAdjustment conversions
    reqInfo = Ret (request', (Some seatBid, errs)) →
  seatBid_currency seatBid = "USD"
  ∨ seatBid_currency seatBid ∈ BidRequest_Cur request.
Proof.
  intros H.
  destruct (MakeRequests (Bidder bidder) request reqInfo)
    as [reqData errs0] eqn:HMR.
  destruct (requestBid_cases json_Unmarshal_Response json_Unmarshal_Request
              json_Marshal_Response http_NewRequest_error
              bidder completion ctx request name
              bidAdjustment conversions reqInfo reqData errs0 HMR)
    as [[_ Hnil] | [Hne _]]; [congruence|].
  eapply requestBid_inv in H as (responses & st & _ & Hcollect & H);
    [|exact HMR|exact Hne].
  injection H as -> -> ->.
  pose proof (collect_request _ _ _ _ _ _ _ _ _ Hcollect) as Hreq.
  apply collect_frame in Hcollect as (_ & _ & _ & Hc). cbn in Hc, Hreq.
  destruct Hc as [Hc|Hc]; [left; exact Hc|].
  destruct Hreq as [Hreq|Hreq]; rewrite Hreq in Hc; [right; exact Hc|].
  destruct (defaultCur_cases request) as [[_ Hdef]|[_ Hdef]];
    rewrite Hdef in Hc; [|right; exact Hc].
  left. cbn in Hc. apply list_elem_of_singleton in Hc. exact Hc.
Qed.

(** X16. [requestBid] never drops an error of the plugin: the errors it
    returns start with those [MakeRequests] returned, in their order, and
    when it returns a nil seat-bid the list is not empty. *)
Theorem requestBid_keeps_plugin_errors (bidder : bidderAdapter)
    (completion : list httpCallInfo → list httpCallInfo)
    (ctx : context.Context) (request request' : BidRequest)
    (name : BidderName) (bidAdjustment : float) (conversions : Conversions)
    (reqInfo : option ExtraRequestInfo)
    (seatBid : option pbsOrtbSeatBid) (errs : list error) :
  requestBid bidder completion ctx request name bidAdjustment conversions
    reqInfo = Ret (request', (seatBid, errs)) →
  (∃ more, errs = (MakeRequests (Bidder bidder) request reqInfo).2 ++ more)
  ∧ (seatBid = None → errs ≠ []).
Proof.
  intros H.
  destruct (MakeRequests (Bidder bidder) request reqInfo)
    as [reqData errs0] eqn:HMR.
  destruct (requestBid_cases json_Unmarshal_Response json_Unmarshal_Request
              json_Marshal_Response http_NewRequest_error
              bidder completion ctx request name
              bidAdjustment conversions reqInfo reqData errs0 HMR)
    as [[_ Hnil] | [Hne Hsome]].
  - rewrite Hnil in H. injection H as _ <- <-. cbn.
    destruct errs0 as [|e errs0].
    + split; [exists [FailedToRequestBids noRequestsMessage]; reflexivity|].
      intros _. discriminate.
    + split; [exists []; rewrite app_nil_r; reflexivity|]. intros _. discriminate.
  - split; [|intros ->; destruct (Hsome _ _ H)].
    eapply requestBid_inv in H as (responses & st & _ & Hcollect & H);
      [|exact HMR|exact Hne].
    injection H as _ _ ->.
    apply collect_frame in Hcollect as (Herrs & _). exact Herrs.
Qed.

(** X17. [requestBid] leaves the targeting of every bid and the extension
    of the seat-bid empty. *)
Theorem requestBid_leaves_targets_and_ext_empty (bidder : bidderAdapter)
    (completion : list httpCallInfo → list httpCallInfo)
    (ctx : context.Context) (request request' : BidRequest)
    (name : BidderName) (bidAdjustment : float) (conversions : Conversions)
    (reqInfo : option ExtraRequestInfo)
    (seatBid : pbsOrtbSeatBid) (errs : list error) :
  requestBid bidder completion ctx request name bidAdjustment conversions
    reqInfo = Ret (request', (Some seatBid, errs)) →
  seatBid_ext seatBid = EmptyString
  ∧ Forall (λ pb, pbsOrtbBid_bidTargets pb = ∅) (seatBid_bids seatBid).
Proof.
  intros H.
  destruct (MakeRequests (Bidder bidder) request reqInfo)
    as [reqData errs0] eqn:HMR.
  destruct (requestBid_cases json_Unmarshal_Response json_Unmarshal_Request
              json_Marshal_Response http_NewRequest_error
              bidder completion ctx request name
              bidAdjustment conversions reqInfo reqData errs0 HMR)
    as [[_ Hnil] | [Hne _]]; [congruence|].
  eapply requestBid_inv in H as (responses & st & _ & Hcollect & H);
    [|exact HMR|exact Hne].
  injection H as -> -> ->.
  apply collect_frame in Hcollect as (_ & (new & Hbids & Htargets) & Hext & _).
  cbn in Hbids, Hext. rewrite Hbids. split; [exact Hext | exact Htargets].
Qed.

(** ** Debug traces *)

Lemma collectResponse_trace (bidder : bidderAdapter) (bidAdjustment : float)
    (conversions : Conversions) (st st' : collector) (httpInfo : httpCallInfo) :
  BidRequest_Test (c_request st) = 1 →
  collectResponse bidder bidAdjustment conversions st httpInfo = Ret st' →
  ∃ call,
    makeExt httpInfo = Ret call
    ∧ seatBid_httpCalls (c_seatBid st')
      = seatBid_httpCalls (c_seatBid st) ++ [call].
Proof.
  intros HT H. apply collectResponse_inv in H as (seatBid & Hcap & H).
  unfold captureHttpCall in Hcap. rewrite HT in Hcap. cbn in Hcap.
  bind_inv Hcap as call Hcall. injection Hcap as <-.
  exists call. split; [exact Hcall|].
  destruct H as [(e & _ & ->) | [(moreErrs & _ & _ & ->) | H]];
    [reflexivity | reflexivity |].
  destruct H as (bidResponse & moreErrs & typedBids & errs & rate & rateErr
                 & currency & _ & _ & _ & _ & H).
  destruct rateErr; [subst st' | destruct H as (bids & _ & ->)]; reflexivity.
Qed.

(** X18. Under [request.Test == 1] the loop records the traces in the
    order in which the results arrive, one per result and each the one
    [makeExt] builds for that result, after the traces already there. *)
Theorem collect_traces_in_arrival_order (bidder : bidderAdapter)
    (bidAdjustment : float) (conversions : Conversions)
    (responses : list httpCallInfo) (st st' : collector) :
  BidRequest_Test (c_request st) = 1 →
  collect bidder bidAdjustment conversions responses st = Ret st' →
  ∃ calls,
    mapM makeExt responses = Ret calls
    ∧ seatBid_httpCalls (c_seatBid st')
      = seatBid_httpCalls (c_seatBid st) ++ calls.
Proof.
  revert st. induction responses as [|httpInfo rest IH]; intros st HT H;
    cbn in H.
  - injection H as <-. exists []. rewrite app_nil_r. split; reflexivity.
  - bind_inv H as st1 Hturn.
    pose proof (collectResponse_httpCalls _ _ _ _ _ _ _ _ _ Hturn) as [HT1 _].
    apply (collectResponse_trace _ _ _ _ _ _ HT) in Hturn
      as (call & Hcall & Hcalls1).
    apply IH in H as (calls & Hrest & Hcalls); [|congruence].
    exists (call :: calls). split.
    + cbn. rewrite Hcall, bind_Ret, Hrest. reflexivity.
    + rewrite Hcalls, Hcalls1, <- app_assoc. reflexivity.
Qed.

(** ** Whole runs *)

Lemma mapM_doRequest (P : httpCallInfo → Prop) (bidder : bidderAdapter)
    (ctx : context.Context) (rds : list RequestData) :
  (∀ rd, ∃ info spawned,
      doRequest bidder ctx (Some rd) = Ret (info, spawned) ∧ P info) →
  ∃ rs,
    mapM (doRequest bidder ctx) (Some <$> rds) = Ret rs
    ∧ Forall P (fst <$> rs)
    ∧ length rs = length rds.
Proof.
  intros Hdo. induction rds as [|rd rds (rs & Hrs & HP & Hlen)].
  - exists []. repeat split. constructor.
  - destruct (Hdo rd) as (info & spawned & Hrd & Hinfo).
    exists ((info, spawned) :: rs). split; [|split].
    + cbn [mapM fmap list_fmap] in Hrs |- *.
      rewrite Hrd, bind_Ret, Hrs. reflexivity.
    + constructor; assumption.
    + cbn. rewrite Hlen. reflexivity.
Qed.

(** With non-nil outbound requests, [requestBid] is the loop run on as
    many results as there are requests, each a result of [doRequest]. *)
Lemma requestBid_run (P : httpCallInfo → Prop) (bidder : bidderAdapter)
    (completion : list httpCallInfo → list httpCallInfo)
    (ctx : context.Context) (request : BidRequest) (name : BidderName)
    (bidAdjustment : float) (conversions : Conversions)
    (reqInfo : option ExtraRequestInfo)
    (rds : list RequestData) (errs : list error) :
  MakeRequests (Bidder bidder) request reqInfo = (Some <$> rds, errs) →
  rds ≠ [] →
  (∀ l, completion l ≡ₚ l) →
  (∀ rd, ∃ info spawned,
      doRequest bidder ctx (Some rd) = Ret (info, spawned) ∧ P info) →
  ∃ responses,
    Forall P responses
    ∧ length responses = length rds
    ∧ requestBid bidder completion ctx request name bidAdjustment conversions
        reqInfo
      = (st ← collect bidder bidAdjustment conversions responses
                {| c_request := request;
                   c_seatBid := {| seatBid_bids := [];
                                   seatBid_currency := defaultCurrency;
                                   seatBid_httpCalls := [];
                                   seatBid_ext := EmptyString |};
                   c_errs := errs |};
         Ret (c_request st, (Some (c_seatBid st), c_errs st))).
Proof.
  intros HMR Hne Hperm Hdo. unfold exchange.requestBid. rewrite HMR.
  destruct rds as [|rd [|rd2 rds]]; [done | |].
  - destruct (Hdo rd) as (info & spawned & Hrd & Hinfo).
    exists [info]. split; [constructor; [exact Hinfo | constructor]|].
    split; [reflexivity|].
    cbn [fmap list_fmap length Nat.eqb lookup list_lookup].
    rewrite Hrd. reflexivity.
  - destruct (mapM_doRequest P bidder ctx (rd :: rd2 :: rds) Hdo)
      as (rs & Hrs & HP & Hlen).
    exists (completion (fst <$> rs)). split; [|split].
    + eapply Permutation_Forall; [|exact HP].
      symmetry. apply Hperm.
    + rewrite (Permutation_length (Hperm _)), length_fmap. exact Hlen.
    + cbn [fmap list_fmap length Nat.eqb]. cbn [fmap list_fmap] in Hrs.
      rewrite Hrs. reflexivity.
Qed.

Lemma collect_all_errors (bidder : bidderAdapter) (bidAdjustment : float)
    (conversions : Conversions) (responses : list httpCallInfo)
    (st : collector) :
  Forall (λ info, is_Some (info_err info)) responses →
  ∃ st' more,
    collect bidder bidAdjustment conversions responses st = Ret st'
    ∧ c_request st' = c_request st
    ∧ seatBid_bids (c_seatBid st') = seatBid_bids (c_seatBid st)
    ∧ seatBid_currency (c_seatBid st') = seatBid_currency (c_seatBid st)
    ∧ c_errs st' = c_errs st ++ more
    ∧ length more = length responses.
Proof.
  intros Hall. revert st.
  induction Hall as [|httpInfo rest [e He] _ IH]; intros st.
  - exists st, []. rewrite app_nil_r. repeat split.
  - assert (∃ st1,
              collectResponse bidder bidAdjustment conversions st httpInfo
              = Ret st1
              ∧ c_request st1 = c_request st
              ∧ seatBid_bids (c_seatBid st1) = seatBid_bids (c_seatBid st)
              ∧ seatBid_currency (c_seatBid st1)
                = seatBid_currency (c_seatBid st)
              ∧ c_errs st1 = c_errs st ++ [e])
      as (st1 & Hturn & Hreq & Hbids & Hcur & Herrs).
    { unfold exchange.collectResponse, captureHttpCall, makeExt. rewrite He.
      destruct (BidRequest_Test (c_request st) =? 1);
        [destruct (info_request httpInfo)|];
        cbn; eexists; repeat split. }
    destruct (IH st1) as (st' & more & Hrest & Hreq' & Hbids' & Hcur' & Herrs' & Hlen).
    exists st', (e :: more). cbn. rewrite Hturn, bind_Ret.
    split; [exact Hrest|]. repeat split; [congruence.. | |].
    + rewrite Herrs', Herrs, <- app_assoc. reflexivity.
    + cbn. rewrite Hlen. reflexivity.
Qed.

(** X19. When the plugin makes at least one outbound request, none of them
    nil, and the client fails on every call (as when the deadline of the
    context has passed), [requestBid] returns a seat-bid without bids, in
    USD, and the errors of [MakeRequests] followed by one error per
    outbound request; the request is left as it was. The results may
    arrive in any order. *)
Theorem requestBid_all_calls_fail (bidder : bidderAdapter)
    (completion : list httpCallInfo → list httpCallInfo)
    (ctx : context.Context) (request : BidRequest) (name : BidderName)
    (bidAdjustment : float) (conversions : Conversions)
    (reqInfo : option ExtraRequestInfo)
    (rds : list RequestData) (errs : list error) :
  MakeRequests (Bidder bidder) request reqInfo = (Some <$> rds, errs) →
  rds ≠ [] →
  (∀ l, completion l ≡ₚ l) →
  (∀ httpReq, ∃ e, Client bidder ctx httpReq = http.DoError e) →
  ∃ seatBid more,
    requestBid bidder completion ctx request name bidAdjustment conversions
      reqInfo = Ret (request, (Some seatBid, errs ++ more))
    ∧ seatBid_bids seatBid = []
    ∧ seatBid_currency seatBid = "USD"
    ∧ length more = length rds.
Proof.
  intros HMR Hne Hperm Hfail.
  destruct (requestBid_run (λ info, is_Some (info_err info)) bidder completion
              ctx request name bidAdjustment conversions reqInfo rds errs
              HMR Hne Hperm) as (responses & Hall & Hlen & Hrun).
  { intros rd. unfold exchange.doRequest, http_NewRequest, set_Header.
    destruct (http_NewRequest_error _ _) as [e|];
      [do 2 eexists; split; [reflexivity | eexists; reflexivity]|].
    cbn. destruct (Hfail (outgoing rd)) as [e ->].
    destruct e; do 2 eexists; (split; [reflexivity | eexists; reflexivity]). }
  match type of Hrun with
  | _ = (mbind _ (collect _ _ _ _ ?st0)) =>
      destruct (collect_all_errors bidder bidAdjustment conversions responses
                  st0 Hall)
        as (st' & more & Hcollect & Hreq & Hbids & Hcur & Herrs & Hmore)
  end.
  rewrite Hcollect, bind_Ret in Hrun. cbn in Hreq, Hbids, Hcur, Herrs.
  exists (c_seatBid st'), more. rewrite Hrun, Hreq, Herrs.
  repeat split; [assumption.. | congruence].
Qed.

(** ** Panics *)

Lemma addNativeTypes_returns (b : Bid) (request : BidRequest) :
  json_Unmarshal_Response (Bid_AdM b) ≠ inr None →
  ∃ r, addNativeTypes (Some b) request = Ret r.
Proof.
  intros Hnull. unfold exchange.addNativeTypes.
  destruct (json_Unmarshal_Response (Bid_AdM b)) as [e|[m|]];
    [eexists; reflexivity | | done].
  destruct (Nat.eqb _ _); [eexists; reflexivity|].
  destruct (getNativeImpByImpID _ _); [eexists; reflexivity|].
  destruct (json_Unmarshal_Request _) as [nativePayload perr].
  destruct (setAllAssetTypes _ _ _). eexists. reflexivity.
Qed.

Lemma enrichNativeBids_safe (request : BidRequest)
    (typedBids : list (option TypedBid)) (errs : list error) :
  forallb (safeEntry json_Unmarshal_Response) typedBids = true →
  ∃ r, enrichNativeBids request typedBids errs = Ret r.
Proof.
  revert errs. induction typedBids as [|o rest IH]; intros errs Hsafe.
  - eexists. reflexivity.
  - cbn [forallb] in Hsafe. apply andb_true_iff in Hsafe as [Ho Hrest].
    destruct o as [tb|]; [|discriminate]. cbn [exchange.enrichNativeBids].
    unfold safeEntry in Ho.
    match goal with
    | |- ∃ r, ?m ≫= _ = Ret r =>
        assert (∃ r1, m = Ret r1) as [[tb' errs1] ->]
    end.
    { destruct (String.eqb _ _); [|eexists; reflexivity].
      destruct (TypedBid_Bid tb) as [b|]; [|discriminate].
      destruct (addNativeTypes_returns b request) as [[nativeMarkup moreErrs] ->].
      { intros Hnull. rewrite Hnull in Ho. discriminate. }
      rewrite bind_Ret. destruct nativeMarkup as [m|]; [|eexists; reflexivity].
      destruct (json_Marshal_Response m); eexists; reflexivity. }
    rewrite bind_Ret. destruct (IH errs1 Hrest) as [[rest' errs2] ->].
    eexists. reflexivity.
Qed.

Lemma enrichNativeBids_Ret_safe (request : BidRequest)
    (typedBids : list (option TypedBid)) (errs : list error)
    (r : list (option TypedBid) * list error) :
  enrichNativeBids request typedBids errs = Ret r →
  forallb (safeEntry json_Unmarshal_Response) typedBids = true.
Proof.
  revert errs r. induction typedBids as [|[tb|] rest IH]; intros errs r H.
  - reflexivity.
  - cbn [exchange.enrichNativeBids] in H.
    bind_inv H as r1 Hhead. destruct r1 as [tb' errs1].
    bind_inv H as r2 Hrest. apply IH in Hrest.
    cbn [forallb]. rewrite Hrest, andb_true_r. unfold safeEntry.
    destruct (String.eqb _ _); [|reflexivity].
    bind_inv Hhead as r3 Hadd. unfold exchange.addNativeTypes in Hadd.
    destruct (TypedBid_Bid tb) as [b|]; [|discriminate].
    destruct (json_Unmarshal_Response (Bid_AdM b)) as [e|[m|]];
      [reflexivity | reflexivity | discriminate].
  - discriminate.
Qed.

Lemma materializeBids_returns (bidAdjustment conversionRate : float)
    (typedBids typedBids' : list (option TypedBid)) (bids : list pbsOrtbBid) :
  Forall2 sameButAdM typedBids typedBids' →
  ∃ bids', materializeBids bidAdjustment conversionRate typedBids' bids
           = Ret bids'.
Proof.
  intros Hsame. revert bids.
  induction Hsame as [|o o' l l' (tb & tb' & _ & -> & _) _ IH]; intros bids.
  - eexists. reflexivity.
  - cbn. apply IH.
Qed.

Lemma safeEntries_sameButAdM (typedBids : list (option TypedBid)) :
  forallb (safeEntry json_Unmarshal_Response) typedBids = true →
  Forall2 sameButAdM typedBids typedBids.
Proof.
  induction typedBids as [|o rest IH]; cbn [forallb]; intros H;
    [constructor|].
  apply andb_true_iff in H as [Ho Hrest].
  destruct o as [tb|]; [|discriminate].
  constructor; [|exact (IH Hrest)]. exists tb, tb. repeat split.
Qed.

Lemma collectResponse_returns (bidder : bidderAdapter) (bidAdjustment : float)
    (conversions : Conversions) (st : collector) (httpInfo : httpCallInfo) :
  (∀ req r1 r2 bidResponse moreErrs,
      MakeBids (Bidder bidder) req r1 r2 = (Some bidResponse, moreErrs) →
      forallb (safeEntry json_Unmarshal_Response)
        (BidderResponse_Bids bidResponse) = true) →
  is_Some (info_request httpInfo)
  ∧ (info_err httpInfo = None → is_Some (info_response httpInfo)) →
  ∃ st', collectResponse bidder bidAdjustment conversions st httpInfo = Ret st'.
Proof.
  intros Hplugin [[rd Hreq] Hresp]. unfold exchange.collectResponse.
  assert (∃ seatBid,
            captureHttpCall (c_request st) (c_seatBid st) httpInfo
            = Ret seatBid) as [seatBid ->].
  { unfold captureHttpCall, makeExt. rewrite Hreq.
    destruct (BidRequest_Test (c_request st) =? 1); [|eexists; reflexivity].
    destruct (info_err httpInfo); [eexists; reflexivity|].
    destruct (Hresp eq_refl) as [resp ->]. eexists. reflexivity. }
  rewrite bind_Ret.
  destruct (info_err httpInfo); [eexists; reflexivity|].
  destruct (MakeBids _ _ _ _) as [[bidResponse|] moreErrs] eqn:HMB;
    [|eexists; reflexivity].
  specialize (Hplugin _ _ _ _ _ HMB).
  destruct (resolveCurrency _ _ _ _ _ _) as [[rate rateErr] currency].
  assert (∃ typedBids errs,
            enrichIfApp (defaultCur (c_request st))
              (BidderResponse_Bids bidResponse) (c_errs st ++ moreErrs)
            = Ret (typedBids, errs)
            ∧ Forall2 sameButAdM (BidderResponse_Bids bidResponse) typedBids)
    as (typedBids & errs & -> & Hsame).
  { unfold exchange.enrichIfApp. destruct (BidRequest_App _).
    - destruct (enrichNativeBids_safe (defaultCur (c_request st)) _
                  (c_errs st ++ moreErrs) Hplugin) as [[typedBids errs] Hrun].
      exists typedBids, errs. split; [exact Hrun|].
      exact (enrichNativeBids_inv _ _ _ _ _ _ _ _ Hrun).
    - do 2 eexists. split; [reflexivity|].
      exact (safeEntries_sameButAdM _ Hplugin). }
  rewrite bind_Ret. destruct rateErr; [eexists; reflexivity|].
  destruct (materializeBids_returns bidAdjustment rate _ _
              (seatBid_bids (set_currency seatBid currency)) Hsame)
    as [bids ->].
  eexists. reflexivity.
Qed.

Lemma collect_returns (bidder : bidderAdapter) (bidAdjustment : float)
    (conversions : Conversions) (responses : list httpCallInfo)
    (st : collector) :
  (∀ req r1 r2 bidResponse moreErrs,
      MakeBids (Bidder bidder) req r1 r2 = (Some bidResponse, moreErrs) →
      forallb (safeEntry json_Unmarshal_Response)
        (BidderResponse_Bids bidResponse) = true) →
  Forall (λ info, is_Some (info_request info)
                  ∧ (info_err info = None → is_Some (info_response info)))
    responses →
  ∃ st', collect bidder bidAdjustment conversions responses st = Ret st'.
Proof.
  intros Hplugin Hall. revert st.
  induction Hall as [|httpInfo rest Hinfo _ IH]; intros st.
  - eexists. reflexivity.
  - destruct (collectResponse_returns bidder bidAdjustment conversions st
                httpInfo Hplugin Hinfo) as [st1 Hturn].
    cbn. rewrite Hturn, bind_Ret. apply IH.
Qed.

(** X20. [requestBid] returns, without a panic, whenever no outbound
    request of the plugin is nil and every bid response of the plugin holds
    only safe entries: no nil entry, and for an entry of type native a
    [Bid] whose [AdM] does not decode to a nil markup. This holds for every
    request, client, converter and order of arrival. *)
Theorem requestBid_returns_on_safe_plugin (bidder : bidderAdapter)
    (completion : list httpCallInfo → list httpCallInfo)
    (ctx : context.Context) (request : BidRequest) (name : BidderName)
    (bidAdjustment : float) (conversions : Conversions)
    (reqInfo : option ExtraRequestInfo) :
  Forall is_Some (MakeRequests (Bidder bidder) request reqInfo).1 →
  (∀ l, completion l ≡ₚ l) →
  (∀ req r1 r2 bidResponse moreErrs,
      MakeBids (Bidder bidder) req r1 r2 = (Some bidResponse, moreErrs) →
      forallb (safeEntry json_Unmarshal_Response)
        (BidderResponse_Bids bidResponse) = true) →
  ∃ request' seatBid errs,
    requestBid bidder completion ctx request name bidAdjustment conversions
      reqInfo = Ret (request', (seatBid, errs)).
Proof.
  intros Hreqs Hperm Hplugin.
  destruct (MakeRequests (Bidder bidder) request reqInfo)
    as [reqData errs0] eqn:HMR. cbn in Hreqs.
  destruct (requestBid_cases json_Unmarshal_Response json_Unmarshal_Request
              json_Marshal_Response http_NewRequest_error
              bidder completion ctx request name
              bidAdjustment conversions reqInfo reqData errs0 HMR)
    as [[_ Hnil] | [Hne _]]; [do 3 eexists; exact Hnil|].
  assert (∃ rds, reqData = Some <$> rds) as [rds ->].
  { clear -Hreqs. induction Hreqs as [|o l [rd ->] _ [rds ->]].
    - exists []. reflexivity.
    - exists (rd :: rds). reflexivity. }
  assert (rds ≠ []) as Hne' by (intros ->; apply Hne; reflexivity).
  destruct (requestBid_run
              (λ info, is_Some (info_request info)
                       ∧ (info_err info = None → is_Some (info_response info)))
              bidder completion ctx request name bidAdjustment conversions
              reqInfo rds errs0 HMR Hne' Hperm)
    as (responses & Hall & _ & Hrun).
  { intros rd.
    destruct (doRequest_shape bidder ctx rd) as (info & spawned & Hdo & Hreq & Hresp).
    exists info, spawned. split; [exact Hdo|]. split; [|exact Hresp].
    rewrite Hreq. eexists. reflexivity. }
  match type of Hrun with
  | _ = (mbind _ (collect _ _ _ _ ?st0)) =>
      destruct (collect_returns bidder bidAdjustment conversions responses
                  st0 Hplugin Hall) as [st' Hcollect]
  end.
  rewrite Hcollect, bind_Ret in Hrun. do 3 eexists. exact Hrun.
Qed.

(** X21. Conversely, when the request has an [App], a turn that processes
    a bid response returns only if every entry of the response is safe: a
    nil entry, a native entry without a [Bid], or a native entry whose
    [AdM] is the JSON literal null (decoded to a nil markup) makes the turn
    panic. *)
Theorem collectResponse_under_app_needs_safe_entries
    (bidder : bidderAdapter) (bidAdjustment : float)
    (conversions : Conversions) (st st' : collector) (httpInfo : httpCallInfo)
    (bidResponse : BidderResponse) (moreErrs : list error) :
  info_err httpInfo = None →
  MakeBids (Bidder bidder) (c_request st)
    (info_request httpInfo) (info_response httpInfo)
  = (Some bidResponse, moreErrs) →
  is_Some (BidRequest_App (c_request st)) →
  collectResponse bidder bidAdjustment conversions st httpInfo = Ret st' →
  forallb (safeEntry json_Unmarshal_Response)
    (BidderResponse_Bids bidResponse) = true.
Proof.
  intros Herr HMB [app Happ] H.
  apply collectResponse_inv in H as (seatBid & _ & H).
  destruct H as [(e & He & _) | [(moreErrs' & _ & HMB' & _) | H]];
    [congruence | congruence |].
  destruct H as (bidResponse' & moreErrs' & typedBids & errs & rate & rateErr
                 & currency & _ & HMB' & _ & Henrich & _).
  rewrite HMB in HMB'. injection HMB' as <- <-.
  unfold exchange.enrichIfApp in Henrich.
  rewrite defaultCur_App, Happ in Henrich.
  exact (enrichNativeBids_Ret_safe _ _ _ _ Henrich).
Qed.

End MoreProperties.

(** * The further properties on the concrete scenario *)

Local Abbreviation SC_addNativeTypes :=
  (addNativeTypes scenario.json_Unmarshal_Response
     scenario.json_Unmarshal_Request).
Local Abbreviation SC_collectResponse :=
  (collectResponse scenario.json_Unmarshal_Response
     scenario.json_Unmarshal_Request scenario.json_Marshal_Response).
Local Abbreviation SC_collect :=
  (collect scenario.json_Unmarshal_Response
     scenario.json_Unmarshal_Request scenario.json_Marshal_Response).

(** X5: the icon of the response takes type 3 from the request. *)
Lemma setAssetTypes_copies_image_type_witness :
  nativeResponse.Asset_Img
    (setAssetTypes (scenario.iconAsset 0)
       (scenario.payload [scenario.requestRating 1; scenario.requestAsset 3])).1
  = nativeResponse.Asset_Img (scenario.iconAsset 3).
Proof.
  exact (setAssetTypes_copies_image_type (scenario.iconAsset 0)
           (scenario.payload [scenario.requestRating 1; scenario.requestAsset 3])
           _ (scenario.requestAsset 3) _ eq_refl eq_refl eq_refl
           ltac:(discriminate)).
Defined.

(** X6: the rating of the response takes type 3 from the request. *)
Lemma setAssetTypes_copies_data_type_witness :
  nativeResponse.Asset_Data
    (setAssetTypes (scenario.ratingAsset 0)
       (scenario.payload [scenario.requestAsset 3; scenario.requestRating 3])).1
  = nativeResponse.Asset_Data (scenario.ratingAsset 3).
Proof.
  exact (setAssetTypes_copies_data_type (scenario.ratingAsset 0)
           (scenario.payload [scenario.requestAsset 3; scenario.requestRating 3])
           _ (scenario.requestRating 3) _ eq_refl eq_refl eq_refl
           ltac:(discriminate) (or_introl eq_refl)).
Defined.

(** X7: an icon answered to a request asset 2 that asks for nothing. *)
Lemma setAssetTypes_image_mismatch_stops_witness :
  setAssetTypes (scenario.iconAsset 0)
    (scenario.payload
       [ {| nativeRequests.Asset_ID := 2; nativeRequests.Asset_Required := 0;
            nativeRequests.Asset_Img := None;
            nativeRequests.Asset_Data := None |} ])
  = (scenario.iconAsset 0,
     Some (errorString
             "Response has an Image asset with ID:2 present that doesn't exist in the request")).
Proof.
  exact (setAssetTypes_image_mismatch_stops (scenario.iconAsset 0)
           (scenario.payload
              [ {| nativeRequests.Asset_ID := 2;
                   nativeRequests.Asset_Required := 0;
                   nativeRequests.Asset_Img := None;
                   nativeRequests.Asset_Data := None |} ])
           _ _ eq_refl eq_refl eq_refl).
Defined.

(** X8: the icon markup enriched against a request that asks for type 3. *)
Lemma addNativeTypes_keeps_markup_shape_witness :
  ∃ m' errs,
    SC_addNativeTypes
      (Some (scenario.mkBid 1 "{assets:[{id:2,img:{url:icon}}]}"))
      (scenario.auctionWith "imp1" "{assets:[{id:2,img:{type:3}}]}")
    = Ret (Some m', errs)
    ∧ Forall2 sameButTypes
        (nativeResponse.Response_Assets (scenario.markup 0))
        (nativeResponse.Response_Assets m').
Proof.
  do 2 eexists. split; [vm_compute; reflexivity|].
  destruct (addNativeTypes_keeps_markup_shape
              scenario.json_Unmarshal_Response scenario.json_Unmarshal_Request
              (scenario.mkBid 1 "{assets:[{id:2,img:{url:icon}}]}")
              (scenario.auctionWith "imp1" "{assets:[{id:2,img:{type:3}}]}")
              _ _ eq_refl) as (m & Hm & _ & _ & Hsame & _).
  injection Hm as <-. exact Hsame.
Defined.

(** X9: the bid names the impression imp1, the request only has imp9. *)
Lemma addNativeTypes_missing_imp_witness :
  SC_addNativeTypes
    (Some (scenario.mkBid 1 "{assets:[{id:2,img:{url:icon}}]}"))
    (scenario.auctionWith "imp9" "{assets:[{id:2,img:{}}]}")
  = Ret (None, [errorString "Could not find native imp"]).
Proof.
  apply (addNativeTypes_missing_imp
           scenario.json_Unmarshal_Response scenario.json_Unmarshal_Request
           (scenario.mkBid 1 "{assets:[{id:2,img:{url:icon}}]}")
           (scenario.auctionWith "imp9" "{assets:[{id:2,img:{}}]}")
           (scenario.markup 0) eq_refl).
  - discriminate.
  - constructor; [|constructor]. left. discriminate.
Defined.

(** X10: the native request of the impression is cut short. *)
Lemma addNativeTypes_continues_after_request_error_witness :
  ∃ m' more,
    SC_addNativeTypes
      (Some (scenario.mkBid 1 "{assets:[{id:2,img:{url:icon}}]}"))
      (scenario.auctionWith "imp1" "{assets:[")
    = Ret (Some m', errorString "unexpected end of JSON input" :: more).
Proof.
  destruct (addNativeTypes_continues_after_request_error
              scenario.json_Unmarshal_Response scenario.json_Unmarshal_Request
              (scenario.mkBid 1 "{assets:[{id:2,img:{url:icon}}]}")
              (scenario.auctionWith "imp1" "{assets:[")
              (scenario.markup 0) {| Native_Request := "{assets:[" |}
              _ _ eq_refl ltac:(discriminate) eq_refl eq_refl)
    as (m' & more & Hrun & _).
  exists m', more. exact Hrun.
Defined.

(** X11: two banner entries, one of them without a [Bid]. *)
Lemma enrichNativeBids_skips_non_native_witness :
  enrichNativeBids scenario.json_Unmarshal_Response
    scenario.json_Unmarshal_Request scenario.json_Marshal_Response
    (scenario.auction scenario.app 0 ["USD"])
    [Some (scenario.typed (Some (scenario.mkBid 1 "null")) BidTypeBanner);
     Some (scenario.typed None BidTypeVideo)] []
  = Ret ([Some (scenario.typed (Some (scenario.mkBid 1 "null")) BidTypeBanner);
          Some (scenario.typed None BidTypeVideo)], []).
Proof.
  apply (enrichNativeBids_skips_non_native
           scenario.json_Unmarshal_Response scenario.json_Unmarshal_Request
           scenario.json_Marshal_Response).
  repeat constructor; eexists; (split; [reflexivity | discriminate]).
Defined.

(** X13: the slow endpoint, with a plugin that has the capability. *)
Lemma doRequest_notifies_iff_deadline_witness :
  ∃ info spawned,
    doRequest scenario.http_NewRequest_error (scenario.adapter ["http://slow"])
      scenario.ctx (Some (scenario.outbound "http://slow"))
    = Ret (info, spawned)
    ∧ is_Some spawned
    ∧ info_err info = Some (Timeout "context deadline exceeded").
Proof.
  do 2 eexists. split; [reflexivity|].
  destruct (doRequest_notifies_iff_deadline scenario.http_NewRequest_error
              (scenario.adapter ["http://slow"]) scenario.ctx
              (scenario.outbound "http://slow") _ _ eq_refl)
    as (Hspawn & Herr & _).
  split; [|exact (Herr eq_refl eq_refl)].
  apply Hspawn. repeat split. eexists. reflexivity.
Defined.

(** X15: the run on the endpoints a and b ends in USD, a code of the
    request. *)
Lemma seatBid_currency_from_Cur_or_default_witness :
  ∃ request' seatBid errs,
    scenario.run ["http://a"; "http://b"]
      (scenario.auction None 0 ["GBP"; "USD"]) 1%float
    = Ret (request', (Some seatBid, errs))
    ∧ (seatBid_currency seatBid = "USD"
       ∨ seatBid_currency seatBid ∈ ["GBP"; "USD"]).
Proof.
  do 3 eexists. split; [vm_compute; reflexivity|].
  exact (seatBid_currency_from_Cur_or_default
           scenario.json_Unmarshal_Response scenario.json_Unmarshal_Request
           scenario.json_Marshal_Response scenario.http_NewRequest_error
           (scenario.adapter ["http://a"; "http://b"]) scenario.inOrder
           scenario.ctx (scenario.auction None 0 ["GBP"; "USD"]) _ "demo"
           1%float scenario.rates None _ _ eq_refl).
Defined.

(** X16: a failed call adds its error after those of the plugin (none
    here). *)
Lemma requestBid_keeps_plugin_errors_witness :
  ∃ request' seatBid errs,
    scenario.run ["http://down"] (scenario.auction None 0 ["USD"]) 1%float
    = Ret (request', (seatBid, errs))
    ∧ (∃ more, errs = [] ++ more)
    ∧ (seatBid = None → errs ≠ []).
Proof.
  do 3 eexists. split; [vm_compute; reflexivity|].
  exact (requestBid_keeps_plugin_errors
           scenario.json_Unmarshal_Response scenario.json_Unmarshal_Request
           scenario.json_Marshal_Response scenario.http_NewRequest_error
           (scenario.adapter ["http://down"]) scenario.inOrder
           scenario.ctx (scenario.auction None 0 ["USD"]) _ "demo"
           1%float scenario.rates None _ _ eq_refl).
Defined.

(** X17: the run on the endpoint a. *)
Lemma requestBid_leaves_targets_and_ext_empty_witness :
  ∃ request' seatBid errs,
    scenario.run ["http://a"] (scenario.auction None 0 ["USD"]) 1%float
    = Ret (request', (Some seatBid, errs))
    ∧ seatBid_ext seatBid = EmptyString
    ∧ Forall (λ pb, pbsOrtbBid_bidTargets pb = ∅) (seatBid_bids seatBid).
Proof.
  do 3 eexists. split; [vm_compute; reflexivity|].
  exact (requestBid_leaves_targets_and_ext_empty
           scenario.json_Unmarshal_Response scenario.json_Unmarshal_Request
           scenario.json_Marshal_Response scenario.http_NewRequest_error
           (scenario.adapter ["http://a"]) scenario.inOrder
           scenario.ctx (scenario.auction None 0 ["USD"]) _ "demo"
           1%float scenario.rates None _ _ eq_refl).
Defined.

(** X18: the answers of b and of a, arriving in this order under
    [Test = 1]. *)
Lemma collect_traces_in_arrival_order_witness :
  ∃ st' calls,
    SC_collect (scenario.adapter ["http://a"; "http://b"]) 1%float
      scenario.rates
      [scenario.answered "http://b" "body-b";
       scenario.answered "http://a" "body-a"]
      (scenario.start (scenario.auction None 1 ["USD"])) = Ret st'
    ∧ mapM makeExt [scenario.answered "http://b" "body-b";
                    scenario.answered "http://a" "body-a"] = Ret calls
    ∧ seatBid_httpCalls (c_seatBid st') = [] ++ calls
    ∧ ExtHttpCall_Uri <$> calls = ["http://b"; "http://a"].
Proof.
  destruct (collect_traces_in_arrival_order
              scenario.json_Unmarshal_Response scenario.json_Unmarshal_Request
              scenario.json_Marshal_Response
              (scenario.adapter ["http://a"; "http://b"]) 1%float
              scenario.rates
              [scenario.answered "http://b" "body-b";
               scenario.answered "http://a" "body-a"]
              (scenario.start (scenario.auction None 1 ["USD"])) _
              eq_refl eq_refl) as (calls & Hcalls & Htraces).
  do 2 eexists. split; [reflexivity|]. split; [exact Hcalls|].
  split; [exact Htraces|].
  injection Hcalls as <-. reflexivity.
Defined.

(** X19: two outbound requests on the client whose deadline has passed. *)
Lemma requestBid_all_calls_fail_witness :
  ∃ seatBid more,
    requestBid scenario.json_Unmarshal_Response scenario.json_Unmarshal_Request
      scenario.json_Marshal_Response scenario.http_NewRequest_error
      (adaptBidder (scenario.plugin ["http://a"; "http://b"])
         scenario.deadClient)
      scenario.inOrder scenario.ctx (scenario.auction None 0 ["GBP"]) "demo"
      1%float scenario.rates None
    = Ret (scenario.auction None 0 ["GBP"], (Some seatBid, [] ++ more))
    ∧ seatBid_bids seatBid = []
    ∧ seatBid_currency seatBid = "USD"
    ∧ length more = 2%nat.
Proof.
  apply (requestBid_all_calls_fail
           scenario.json_Unmarshal_Response scenario.json_Unmarshal_Request
           scenario.json_Marshal_Response scenario.http_NewRequest_error
           (adaptBidder (scenario.plugin ["http://a"; "http://b"])
              scenario.deadClient)
           scenario.inOrder scenario.ctx (scenario.auction None 0 ["GBP"])
           "demo" 1%float scenario.rates None
           [scenario.outbound "http://a"; scenario.outbound "http://b"] []
           eq_refl).
  - discriminate.
  - intros l. reflexivity.
  - intros httpReq. eexists. reflexivity.
Defined.

(** X20: the banner plugin, in a request with an [App]. *)
Lemma requestBid_returns_on_safe_plugin_witness :
  ∃ request' seatBid errs,
    requestBid scenario.json_Unmarshal_Response scenario.json_Unmarshal_Request
      scenario.json_Marshal_Response scenario.http_NewRequest_error
      (adaptBidder (scenario.bannerPlugin ["http://a"; "http://down"])
         scenario.client)
      scenario.inOrder scenario.ctx (scenario.auction scenario.app 1 [])
      "demo" 1%float scenario.rates None
    = Ret (request', (seatBid, errs)).
Proof.
  apply (requestBid_returns_on_safe_plugin
           scenario.json_Unmarshal_Response scenario.json_Unmarshal_Request
           scenario.json_Marshal_Response scenario.http_NewRequest_error
           (adaptBidder (scenario.bannerPlugin ["http://a"; "http://down"])
              scenario.client)
           scenario.inOrder scenario.ctx (scenario.auction scenario.app 1 [])
           "demo" 1%float scenario.rates None).
  - repeat constructor; eexists; reflexivity.
  - intros l. reflexivity.
  - intros req r1 r2 bidResponse moreErrs [= <- _]. reflexivity.
Defined.

(** X21: the native answer, whose markup decodes, in a request with an
    [App]. *)
Lemma collectResponse_under_app_needs_safe_entries_witness :
  ∃ st' bidResponse,
    SC_collectResponse (scenario.adapter ["http://native"]) 1%float
      scenario.rates (scenario.start (scenario.auction scenario.app 0 ["USD"]))
      (scenario.answered "http://native" "body-native") = Ret st'
    ∧ MakeBids (Bidder (scenario.adapter ["http://native"]))
        (scenario.auction scenario.app 0 ["USD"])
        (info_request (scenario.answered "http://native" "body-native"))
        (info_response (scenario.answered "http://native" "body-native"))
      = (Some bidResponse, [])
    ∧ forallb (safeEntry scenario.json_Unmarshal_Response)
        (BidderResponse_Bids bidResponse) = true.
Proof.
  do 2 eexists. split; [vm_compute; reflexivity|].
  split; [reflexivity|].
  apply (collectResponse_under_app_needs_safe_entries
           scenario.json_Unmarshal_Response scenario.json_Unmarshal_Request
           scenario.json_Marshal_Response
           (scenario.adapter ["http://native"]) 1%float scenario.rates
           (scenario.start (scenario.auction scenario.app 0 ["USD"])) _
           (scenario.answered "http://native" "body-native") _ []
           eq_refl eq_refl ltac:(eexists; reflexivity) eq_refl).
Defined.


